(** * aiida-cp2k example scripts: a shallow embedding

    The four example scripts of the repository
    ([examples/single_calculations/example_restart.py],
    [examples/single_calculations/example_structure_through_file.py],
    [examples/workchains/example_base.py] and
    [examples/workchains/example_multistage_h2o_testfile.py]) are
    straight-line Python programs that build nested dictionaries, fill a
    process builder and hand it to the AiiDA engine.

    The embedding keeps what the scripts themselves do:
    - Python objects that the scripts mutate (dictionaries, lists, the
      process builder) live in a heap and are passed around by reference;
    - every script is a computation in a state-and-exception monad whose
      state is the heap together with the trace of observable operations
      (prints, builder creation, attribute assignments, submissions,
      assertions);
    - everything outside the repository (the AiiDA engine, the code
      registry, floating-point arithmetic and rendering, the file system)
      is a field of a [world] record over which the theorems quantify. *)

From Stdlib Require Import Ascii.
From stdpp Require Import gmap strings list pretty.

Set Warnings "-register-all".
Local Open Scope string_scope.
Local Open Scope list_scope.

(** ** Values *)

(** A decimal literal [mantissa * 10 ^ exponent], as written in the source
    ([1e-20] is [Dec 1 (-20)]). *)
Record decimal := Dec { mantissa : Z; exponent : Z }.

(** ASE [Atoms] objects are built and updated by the external [ase]
    package only; the embedding records which operations were applied. *)
Inductive atoms :=
| molecule (name : string)
| center (vacuum : decimal) (a : atoms)
| scale_positions (k : decimal) (a : atoms)
| io_read (path : string).

(** Floating-point numbers seen by the scripts: literals of the source and
    the diagonal entries of an [Atoms] cell. *)
Inductive pyfloat :=
| FLit (d : decimal)
| FCellDiagonal (a : atoms) (axis : nat).

Inductive scalar :=
| PyNone
| PyBool (b : bool)
| PyInt (z : Z)
| PyFloat (f : pyfloat)
| PyStr (s : string).

(** Immutable nested data: the attributes of a stored [Dict] node and the
    shape of a dictionary display in the source. *)
Inductive json :=
| JAtom (a : scalar)
| JList (l : list json)
| JDict (items : list (string * json)).

Definition jstr (s : string) : json := JAtom (PyStr s).
Definition jint (z : Z) : json := JAtom (PyInt z).
Definition jfloat (m e : Z) : json := JAtom (PyFloat (FLit (Dec m e))).

(** AiiDA data nodes that the scripts only create or receive. *)
Inductive node :=
| Code (label : string)
| SinglefileData (file : string)
| StructureData (ase : atoms)
| RemoteData (pk : Z)
| FolderData (objects : gmap string string)
| StoredDict (attributes : gmap string json).

Inductive process :=
| CalculationFactory (entry_point : string)
| WorkflowFactory (entry_point : string).

Abbreviation loc := nat (only parsing).

(** A Python value: an immutable scalar, a data node, a [Dict] node made by
    the script (it holds its dictionary by reference) or a reference to a
    mutable object. *)
Inductive pyval :=
| VAtom (a : scalar)
| VNode (n : node)
| VDict (l : loc)
| VRef (l : loc).

Definition vstr (s : string) : pyval := VAtom (PyStr s).
Definition vint (z : Z) : pyval := VAtom (PyInt z).

Inductive pyobj :=
| ODict (items : list (string * pyval))
| OList (items : list pyval)
| OBuilder (proc : process) (inputs : list (list string * pyval)).

Inductive exn :=
| AssertionError
| KeyError (key : string)
| AttributeError (name : string)
| TypeError
| ValueError
| IndexError
| IOError (name : string)
| RecursionError
| InvalidOperation
| NotExistent
| SystemExit (status : Z)
| EngineError (msg : string).

(** ** Insertion-ordered dictionaries *)

Section assoc.
Context {K V : Type} `{EqDecision K}.

Fixpoint assoc_get (k : K) (l : list (K * V)) : option V :=
  match l with
  | [] => None
  | (k', v) :: r => if decide (k' = k) then Some v else assoc_get k r
  end.

(** [d[k] = v]: an existing key keeps its place, a new key goes last. *)
Fixpoint assoc_set (k : K) (v : V) (l : list (K * V)) : list (K * V) :=
  match l with
  | [] => [(k, v)]
  | (k', v') :: r =>
      if decide (k' = k) then (k, v) :: r else (k', v') :: assoc_set k v r
  end.

Fixpoint assoc_del (k : K) (l : list (K * V)) : list (K * V) :=
  match l with
  | [] => []
  | (k', v') :: r =>
      if decide (k' = k) then r else (k', v') :: assoc_del k r
  end.

End assoc.

(** ** The outside world *)

Record world := World {
  (** [os.path.dirname] of the real (or absolute) path of [__file__] *)
  script_dir : string;
  (** [os.path.abspath] *)
  abspath : string -> string;
  (** the text [format] produces for a float when no type is given *)
  float_str : pyfloat -> string;
  (** [abs(v - a) < b] in floating point, [TypeError] on a non-number *)
  abs_diff_lt : json -> pyfloat -> pyfloat -> exn + bool;
  (** [v == z] for a float [v] and an integer [z] *)
  float_eq_int : pyfloat -> Z -> bool;
  (** [Code.get_from_string] *)
  get_from_string : string -> exn + node;
  (** [aiida.engine.run]: the outputs of the [n]-th submission of the
      session, given the process class, the builder's inputs and the heap
      they refer to *)
  engine : nat -> process -> list (list string * pyval) -> list pyobj ->
           exn + gmap string node
}.

(** ** The script monad *)

Inductive event :=
| EPrint (s : string)
| EGetBuilder (proc : process) (b : loc)
| ESetAttr (b : loc) (path : list string) (v : pyval)
| ERun (b : loc) (proc : process) (inputs : list (list string * pyval))
       (h : list pyobj)
| EAssert (holds : bool).

Record state := State { heap : list pyobj; trace : list event }.

Inductive result (A : Type) :=
| Ok (a : A)
| Raise (e : exn).
Arguments Ok {A} a.
Arguments Raise {A} e.

Definition script (A : Type) : Type := state -> result A * state.

#[export] Instance script_ret : MRet script := fun A a st => (Ok a, st).

(** What follows a step: the rest of the script runs on the step's value
    and state, an exception ends the script in the state it was raised in. *)
Definition and_then {A B} (f : A -> script B) (x : result A * state)
  : result B * state :=
  match x with
  | (Ok a, st') => f a st'
  | (Raise e, st') => (Raise e, st')
  end.

#[export] Instance script_bind : MBind script := fun A B f m st =>
  and_then f (m st).

Definition raise {A} (e : exn) : script A := fun st => (Raise e, st).

Definition lift {A} (r : exn + A) : script A :=
  match r with
  | inl e => raise e
  | inr a => mret a
  end.

(** [try: body / except e: handler]: the handler decides which exceptions
    it takes; it returns [None] for the others, which propagate. *)
Definition try_except {A} (body : script A) (handler : exn -> option (script A))
  : script A := fun st =>
  match body st with
  | (Ok a, st') => (Ok a, st')
  | (Raise e, st') =>
      match handler e with
      | Some h => h st'
      | None => (Raise e, st')
      end
  end.

Definition log (e : event) : script unit := fun st =>
  (Ok tt, State (heap st) (trace st ++ [e])).

Definition print (s : string) : script unit := log (EPrint s).

(** [assert c] *)
Definition py_assert (c : bool) : script unit :=
  log (EAssert c);;
  if c then mret tt else raise AssertionError.

(** [sys.exit(status)] *)
Definition sys_exit {A} (status : Z) : script A := raise (SystemExit status).

Definition initial : state := State [] [].

(** ** Heap objects *)

Definition alloc (o : pyobj) : script loc := fun st =>
  (Ok (length (heap st)), State (heap st ++ [o]) (trace st)).

Definition store (l : loc) (o : pyobj) : script unit := fun st =>
  (Ok tt, State (<[l := o]> (heap st)) (trace st)).

(** The items of the dictionary a value refers to; [TypeError] for a value
    that is not subscriptable. *)
Definition dict_items (d : pyval) : script (loc * list (string * pyval)) :=
  fun st =>
  match d with
  | VRef l =>
      match heap st !! l with
      | Some (ODict items) => (Ok (l, items), st)
      | _ => (Raise TypeError, st)
      end
  | _ => (Raise TypeError, st)
  end.

(** [d[k]] *)
Definition getitem (d : pyval) (k : string) : script pyval :=
  '(_, items) ← dict_items d;
  match assoc_get k items with
  | Some v => mret v
  | None => raise (KeyError k)
  end.

(** [d[k] = v] *)
Definition setitem (d : pyval) (k : string) (v : pyval) : script unit :=
  '(l, items) ← dict_items d;
  store l (ODict (assoc_set k v items)).

(** [del d[k]] *)
Definition delitem (d : pyval) (k : string) : script unit :=
  '(l, items) ← dict_items d;
  match assoc_get k items with
  | Some _ => store l (ODict (assoc_del k items))
  | None => raise (KeyError k)
  end.

(** A dictionary display [{k1: v1, ...}] whose values are already
    evaluated. *)
Definition new_dict (items : list (string * pyval)) : script pyval :=
  l ← alloc (ODict items);
  mret (VRef l).

(** Evaluation of a nested display of dictionaries, lists and scalars:
    inner objects are created before the object that holds them. *)
Fixpoint alloc_json (j : json) (h : list pyobj) : pyval * list pyobj :=
  match j with
  | JAtom a => (VAtom a, h)
  | JList l =>
      let '(vs, h') :=
        (fix go (l : list json) (h : list pyobj) : list pyval * list pyobj :=
           match l with
           | [] => ([], h)
           | x :: r =>
               let '(v, h1) := alloc_json x h in
               let '(vs, h2) := go r h1 in
               (v :: vs, h2)
           end) l h in
      (VRef (length h'), h' ++ [OList vs])
  | JDict items =>
      let '(kvs, h') :=
        (fix go (l : list (string * json)) (h : list pyobj)
           : list (string * pyval) * list pyobj :=
           match l with
           | [] => ([], h)
           | (k, x) :: r =>
               let '(v, h1) := alloc_json x h in
               let '(kvs, h2) := go r h1 in
               ((k, v) :: kvs, h2)
           end) items h in
      (VRef (length h'), h' ++ [ODict kvs])
  end.

Definition literal (j : json) : script pyval := fun st =>
  let '(v, h) := alloc_json j (heap st) in
  (Ok v, State h (trace st)).

(** The nested data below a value, read back from the heap. [None] when
    the value holds something that is not plain data, or when [fuel] runs
    out (a cyclic structure). *)
Fixpoint reify (fuel : nat) (h : list pyobj) (v : pyval) : option json :=
  match fuel with
  | O => None
  | S n =>
      match v with
      | VAtom a => Some (JAtom a)
      | VRef l =>
          match h !! l with
          | Some (ODict items) =>
              JDict <$> mapM (fun kv => pair kv.1 <$> reify n h kv.2) items
          | Some (OList vs) => JList <$> mapM (reify n h) vs
          | _ => None
          end
      | _ => None
      end
  end.

(** ** [copy.deepcopy] *)

Abbreviation copied A := (exn + (A * list (nat * nat) * list pyobj))%type
  (only parsing).

Section deepcopy.
Variable rec : pyval -> list (nat * nat) -> list pyobj -> copied pyval.

Fixpoint copy_list (vs : list pyval) (memo : list (nat * nat))
  (h : list pyobj) : copied (list pyval) :=
  match vs with
  | [] => inr ([], memo, h)
  | v :: r =>
      match rec v memo h with
      | inl e => inl e
      | inr (v', memo1, h1) =>
          match copy_list r memo1 h1 with
          | inl e => inl e
          | inr (r', memo2, h2) => inr (v' :: r', memo2, h2)
          end
      end
  end.

Fixpoint copy_items (kvs : list (string * pyval)) (memo : list (nat * nat))
  (h : list pyobj) : copied (list (string * pyval)) :=
  match kvs with
  | [] => inr ([], memo, h)
  | (k, v) :: r =>
      match rec v memo h with
      | inl e => inl e
      | inr (v', memo1, h1) =>
          match copy_items r memo1 h1 with
          | inl e => inl e
          | inr (r', memo2, h2) => inr ((k, v') :: r', memo2, h2)
          end
      end
  end.

End deepcopy.

(** The copy of a dictionary or list is created empty and entered in the
    memo before its members are copied, as [copy.deepcopy] does; scalars
    are shared; AiiDA nodes refuse to be deep-copied. [fuel] is the
    number of levels the copy can go down: every call of [deepcopy]
    takes one, for a scalar as for a dictionary, and with none left the
    interpreter raises [RecursionError]. *)
Fixpoint deepcopy_val (fuel : nat) (v : pyval) (memo : list (nat * nat))
  (h : list pyobj) : copied pyval :=
  match fuel with
  | O => inl RecursionError
  | S n =>
      match v with
      | VAtom a => inr (v, memo, h)
      | VNode _ | VDict _ => inl InvalidOperation
      | VRef l =>
          match assoc_get l memo with
          | Some l' => inr (VRef l', memo, h)
          | None =>
              match h !! l with
              | Some (ODict items) =>
                  let l' := length h in
                  match copy_items (deepcopy_val n) items ((l, l') :: memo)
                          (h ++ [ODict []]) with
                  | inl e => inl e
                  | inr (items', memo', h') =>
                      inr (VRef l', memo', <[l' := ODict items']> h')
                  end
              | Some (OList vs) =>
                  let l' := length h in
                  match copy_list (deepcopy_val n) vs ((l, l') :: memo)
                          (h ++ [OList []]) with
                  | inl e => inl e
                  | inr (vs', memo', h') =>
                      inr (VRef l', memo', <[l' := OList vs']> h')
                  end
              | _ => inl TypeError
              end
          end
      end
  end.

(** [sys.getrecursionlimit()] as CPython sets it. *)
Definition recursion_limit : nat := 1000.

(** The levels [copy.deepcopy] can go down when it is called with
    [frames] frames of the interpreter in use. Every level, a scalar as
    much as a dictionary or a list, takes two frames, the one of
    [deepcopy] and the one of the function for the type
    ([_deepcopy_dict], [_deepcopy_list], [_deepcopy_atomic]), and the
    built-in functions called there take one more for a moment. *)
Definition levels (frames : nat) : nat := (recursion_limit - frames - 1) / 2.

(** [copy.deepcopy(v)], called with [frames] frames in use: data nested
    deeper than the frames that are left allow ends the copy with
    [RecursionError]. *)
Definition deepcopy_at (frames : nat) (v : pyval) : script pyval := fun st =>
  match deepcopy_val (levels frames) v [] (heap st) with
  | inl e => (Raise e, st)
  | inr (v', _, h') => (Ok v', State h' (trace st))
  end.

(** The frames in use in a function of a script that is called from the
    top level of its module: the module's and its own. Called through
    [click], as [cli] calls it, the function has a few more in use and
    one level less for every two of them; the parameters the scripts
    copy are five levels deep. *)
Definition script_frames : nat := 2.

(** [deepcopy(v)] in a function of a script. *)
Definition deepcopy (v : pyval) : script pyval := deepcopy_at script_frames v.

(** ** AiiDA nodes and the process builder *)

(** [Dict(dict=d)]: the node keeps the dictionary it is given. *)
Definition Dict (d : pyval) : script pyval :=
  '(l, _) ← dict_items d;
  mret (VDict l).

(** [n.get_dict()]: the dictionary held by a [Dict] node of the script, a
    new dictionary for a stored one. *)
Definition get_dict (n : pyval) : script pyval :=
  match n with
  | VDict l => mret (VRef l)
  | VNode (StoredDict attrs) => literal (JDict (map_to_list attrs))
  | _ => raise (AttributeError "get_dict")
  end.

(** [P.get_builder()] *)
Definition get_builder (proc : process) : script pyval :=
  l ← alloc (OBuilder proc []);
  log (EGetBuilder proc l);;
  mret (VRef l).

(** [builder.a.b.c = v], with [path] the attribute names [a; b; c]. *)
Definition setattr (b : pyval) (path : list string) (v : pyval)
  : script unit := fun st =>
  match b with
  | VRef l =>
      match heap st !! l with
      | Some (OBuilder proc inputs) =>
          (Ok tt,
           State (<[l := OBuilder proc (assoc_set path v inputs)]> (heap st))
                 (trace st ++ [ESetAttr l path v]))
      | _ => (Raise (AttributeError (default "" (head path))), st)
      end
  | _ => (Raise (AttributeError (default "" (head path))), st)
  end.

Definition is_run (e : event) : bool :=
  match e with
  | ERun _ _ _ _ => true
  | _ => false
  end.

Definition is_assert (e : event) : bool :=
  match e with
  | EAssert _ => true
  | _ => false
  end.

Definition is_get_builder (e : event) : bool :=
  match e with
  | EGetBuilder _ _ => true
  | _ => false
  end.

Definition count_runs (t : list event) : nat := length (filter is_run t).

(** [run(builder)]: the engine receives the inputs as they are at the time
    of the call. *)
Definition run (w : world) (b : pyval) : script (gmap string node) :=
  fun st =>
  match b with
  | VRef l =>
      match heap st !! l with
      | Some (OBuilder proc inputs) =>
          let st' := State (heap st)
                           (trace st ++ [ERun l proc inputs (heap st)]) in
          match engine w (count_runs (trace st)) proc inputs (heap st) with
          | inl e => (Raise e, st')
          | inr outs => (Ok outs, st')
          end
      | _ => (Raise TypeError, st)
      end
  | _ => (Raise TypeError, st)
  end.

(** [outs[k]] on the outputs of a finished process *)
Definition output (outs : gmap string node) (k : string) : script node :=
  match outs !! k with
  | Some n => mret n
  | None => raise (KeyError k)
  end.

(** [k in outs] *)
Definition has_output (outs : gmap string node) (k : string) : bool :=
  bool_decide (is_Some (outs !! k)).

(** The attributes of a [Dict] node and the files of a folder node; other
    nodes have neither. *)
Definition node_attributes (n : node) : option (gmap string json) :=
  match n with
  | StoredDict attrs => Some attrs
  | _ => None
  end.

Definition node_objects (n : node) : option (gmap string string) :=
  match n with
  | FolderData objects => Some objects
  | _ => None
  end.

(** [n.dict.a] *)
Definition dict_attr (n : node) (a : string) : script json :=
  match node_attributes n with
  | Some attrs =>
      match attrs !! a with
      | Some j => mret j
      | None => raise (AttributeError a)
      end
  | None => raise (AttributeError "dict")
  end.

(** [n._repository.get_object_content(name)] *)
Definition get_object_content (n : node) (name : string) : script string :=
  match node_objects n with
  | Some objects =>
      match objects !! name with
      | Some c => mret c
      | None => raise (IOError name)
      end
  | None => raise (AttributeError "_repository")
  end.

(** [v is True] *)
Definition is_True (v : json) : bool :=
  match v with
  | JAtom (PyBool true) => true
  | _ => false
  end.

(** [v is not None] *)
Definition is_not_None (v : json) : bool :=
  match v with
  | JAtom PyNone => false
  | _ => true
  end.

(** [v == z] for an integer literal [z] *)
Definition py_eq_int (w : world) (v : json) (z : Z) : bool :=
  match v with
  | JAtom (PyInt z') => bool_decide (z' = z)
  | JAtom (PyBool b) => bool_decide (Z.b2z b = z)
  | JAtom (PyFloat f) => float_eq_int w f z
  | _ => false
  end.

(** ** Strings *)

Definition starts_with_sep (s : string) : bool :=
  match s with
  | String "/"%char _ => true
  | _ => false
  end.

Fixpoint ends_with_sep (s : string) : bool :=
  match s with
  | "" => false
  | String c EmptyString => bool_decide (c = "/"%char)
  | String _ r => ends_with_sep r
  end.

(** [os.path.join(a, *p)] on a POSIX system *)
Definition os_path_join (a : string) (p : list string) : string :=
  fold_left (fun path b =>
    if starts_with_sep b then b
    else if bool_decide (path = "") || ends_with_sep path then path +:+ b
    else path +:+ "/" +:+ b) p a.

(** The result of a call that may raise, with [f] applied to its value. *)
Definition on_ok {A B} (f : A -> B) (r : exn + A) : exn + B :=
  match r with
  | inl e => inl e
  | inr a => inr (f a)
  end.

Inductive align := AlignLeft | AlignRight | AlignCenter.

Definition digit_of (c : ascii) : option nat :=
  let n := nat_of_ascii c in
  if (48 <=? n)%nat && (n <=? 57)%nat then Some (n - 48)%nat else None.

Fixpoint parse_width (s : string) (acc : option nat) : option (option nat) :=
  match s with
  | "" => Some acc
  | String c r =>
      match digit_of c, acc with
      | Some O, None => None
      | Some d, _ => parse_width r (Some (10 * default O acc + d)%nat)
      | None, _ => None
      end
  end.

(** The part of the format-specification language the scripts use: an
    optional alignment and an optional width. [None] for anything else. *)
Definition parse_spec (s : string) : option (option align * option nat) :=
  match s with
  | String "<"%char r => pair (Some AlignLeft) <$> parse_width r None
  | String ">"%char r => pair (Some AlignRight) <$> parse_width r None
  | String "^"%char r => pair (Some AlignCenter) <$> parse_width r None
  | _ => pair None <$> parse_width s None
  end.

Fixpoint spaces (n : nat) : string :=
  match n with
  | O => ""
  | S n' => String " " (spaces n')
  end.

Definition pad (a : align) (width : nat) (s : string) : string :=
  let fill := (width - String.length s)%nat in
  match a with
  | AlignLeft => s +:+ spaces fill
  | AlignRight => spaces fill +:+ s
  | AlignCenter => spaces (fill / 2) +:+ s +:+ spaces (fill - fill / 2)
  end.

(** [format(v, spec)] for a scalar. Without a specification this is
    [str(v)]; with one, [None] has no format, a boolean is formatted as
    the integer it is, and numbers are right-aligned by default. *)
Definition format_value (w : world) (v : scalar) (spec : string)
  : exn + string :=
  if bool_decide (spec = "") then
    inr match v with
        | PyNone => "None"
        | PyBool b => if b then "True" else "False"
        | PyInt z => pretty z
        | PyFloat f => float_str w f
        | PyStr s => s
        end
  else
    match parse_spec spec with
    | None => inl ValueError
    | Some (a, width) =>
        let fit (dflt : align) (s : string) :=
          pad (default dflt a) (default O width) s in
        match v with
        | PyNone => inl TypeError
        | PyBool b => inr (fit AlignRight (pretty (Z.b2z b)))
        | PyInt z => inr (fit AlignRight (pretty z))
        | PyFloat f => inr (fit AlignRight (float_str w f))
        | PyStr s => inr (fit AlignLeft s)
        end
    end.

(** A replacement field [{}] or [{:spec}], filled with the next argument. *)
Definition format_field (w : world) (field : string) (args : list scalar)
  : exn + (string * list scalar) :=
  match args with
  | [] => inl IndexError
  | v :: args' =>
      match field with
      | "" => on_ok (fun s => (s, args')) (format_value w v "")
      | String ":"%char spec => on_ok (fun s => (s, args')) (format_value w v spec)
      | _ => inl ValueError
      end
  end.

(** [fmt.format] on the arguments [args], with automatically numbered fields; [field] holds
    the text of the replacement field being read, if any. *)
Fixpoint format_from (w : world) (fmt : string) (args : list scalar)
  (field : option string) : exn + string :=
  match fmt, field with
  | "", None => inr ""
  | "", Some _ => inl ValueError
  | String c r, None =>
      if bool_decide (c = "{"%char) then
        match r with
        | String "{"%char r' => on_ok (String "{"%char) (format_from w r' args None)
        | _ => format_from w r args (Some "")
        end
      else if bool_decide (c = "}"%char) then
        match r with
        | String "}"%char r' => on_ok (String "}"%char) (format_from w r' args None)
        | _ => inl ValueError
        end
      else on_ok (String c) (format_from w r args None)
  | String c r, Some f =>
      if bool_decide (c = "}"%char) then
        match format_field w f args with
        | inl e => inl e
        | inr (s, args') => on_ok (String.append s) (format_from w r args' None)
        end
      else format_from w r args (Some (f +:+ String c ""))
  end.

Definition str_format (w : world) (fmt : string) (args : list scalar)
  : exn + string :=
  format_from w fmt args None.

(** ** Regular expressions *)

Inductive regex :=
| RNever
| REps
| RChar (c : ascii)
| RDot
| RSeq (r1 r2 : regex)
| RAlt (r1 r2 : regex)
| RStar (r : regex).

Fixpoint nullable (r : regex) : bool :=
  match r with
  | RNever | RChar _ | RDot => false
  | REps | RStar _ => true
  | RSeq r1 r2 => nullable r1 && nullable r2
  | RAlt r1 r2 => nullable r1 || nullable r2
  end.

Definition newline : ascii := ascii_of_nat 10.

(** What is left of [r] to match after reading [c]; [.] takes every
    character but a newline. *)
Fixpoint deriv (c : ascii) (r : regex) : regex :=
  match r with
  | RNever | REps => RNever
  | RChar c' => if bool_decide (c' = c) then REps else RNever
  | RDot => if bool_decide (c = newline) then RNever else REps
  | RSeq r1 r2 =>
      if nullable r1 then RAlt (RSeq (deriv c r1) r2) (deriv c r2)
      else RSeq (deriv c r1) r2
  | RAlt r1 r2 => RAlt (deriv c r1) (deriv c r2)
  | RStar r1 => RSeq (deriv c r1) (RStar r1)
  end.

(** Some prefix of [s] matches [r]. *)
Fixpoint match_prefix (r : regex) (s : string) : bool :=
  nullable r ||
  match s with
  | "" => false
  | String c s' => match_prefix (deriv c r) s'
  end.

(** Some substring of [s] matches [r]. *)
Fixpoint search (r : regex) (s : string) : bool :=
  match_prefix r s ||
  match s with
  | "" => false
  | String _ s' => search r s'
  end.

Definition re_special : list ascii :=
  ["\"; "^"; "$"; "*"; "+"; "?"; "{"; "}"; "["; "]"; "("; ")"; "|"]%char.

Definition re_atom (c : ascii) : option regex :=
  if bool_decide (c = "."%char) then Some RDot
  else if bool_decide (c ∈ re_special) then None
  else Some (RChar c).

(** Patterns made of literal characters, [.] and a [*] after either;
    [None] for every other pattern. *)
Fixpoint re_compile (p : string) : option regex :=
  match p with
  | "" => Some REps
  | String c r =>
      match re_atom c with
      | None => None
      | Some a =>
          match r with
          | String "*"%char r' => RSeq (RStar a) <$> re_compile r'
          | _ => RSeq a <$> re_compile r
          end
      end
  end.

(** [re.search(pattern, s)], read as a truth value *)
Definition re_search (pattern s : string) : script bool :=
  match re_compile pattern with
  | Some r => mret (search r s)
  | None => raise ValueError
  end.

(** The strings a pattern matches in full. *)
Inductive matches : regex -> string -> Prop :=
| matches_eps : matches REps ""
| matches_char c : matches (RChar c) (String c "")
| matches_dot c : c <> newline -> matches RDot (String c "")
| matches_seq r1 r2 s1 s2 :
    matches r1 s1 -> matches r2 s2 -> matches (RSeq r1 r2) (s1 +:+ s2)
| matches_alt_l r1 r2 s : matches r1 s -> matches (RAlt r1 r2) s
| matches_alt_r r1 r2 s : matches r2 s -> matches (RAlt r1 r2) s
| matches_star_nil r : matches (RStar r) ""
| matches_star_cons r s1 s2 :
    matches r s1 -> matches (RStar r) s2 -> matches (RStar r) (s1 +:+ s2).

(** The pattern for the text [l] followed by [r]. *)
Fixpoint text_then (l : string) (r : regex) : regex :=
  match l with
  | "" => r
  | String c l' => RSeq (RChar c) (text_then l' r)
  end.

(** A string without a line break. *)
Fixpoint one_line (s : string) : Prop :=
  match s with
  | "" => True
  | String c s' => c <> newline /\ one_line s'
  end.

(** ** The scripts *)

(** [atoms.cell.diagonal()] *)
Definition cell_diagonal (a : atoms) : list scalar :=
  [PyFloat (FCellDiagonal a 0); PyFloat (FCellDiagonal a 1);
   PyFloat (FCellDiagonal a 2)].

(** The resources every script asks for. *)
Definition one_process : json :=
  JDict [("num_machines", jint 1); ("num_mpiprocs_per_machine", jint 1)].

(** The two [KIND] sections shared by the three scripts that write their
    own CP2K input. *)
Definition kind_sections : json :=
  JList [
    JDict [("_", jstr "O");
           ("BASIS_SET", jstr "DZVP-MOLOPT-SR-GTH");
           ("POTENTIAL", jstr "GTH-LDA-q6")];
    JDict [("_", jstr "H");
           ("BASIS_SET", jstr "DZVP-MOLOPT-SR-GTH");
           ("POTENTIAL", jstr "GTH-LDA-q1")]
  ].

(** examples/single_calculations/example_restart.py *)
Module Restart.

Definition Cp2kCalculation : process := CalculationFactory "cp2k".

Definition params1_dict : json :=
  JDict [
    ("GLOBAL", JDict [
       ("RUN_TYPE", jstr "GEO_OPT");
       ("WALLTIME", jstr "00:00:10")]);
    ("MOTION", JDict [
       ("GEO_OPT", JDict [
          ("MAX_FORCE", jfloat 1 (-20));
          ("MAX_ITER", jint 100000)])]);
    ("FORCE_EVAL", JDict [
       ("METHOD", jstr "Quickstep");
       ("DFT", JDict [
          ("BASIS_SET_FILE_NAME", jstr "BASIS_MOLOPT");
          ("POTENTIAL_FILE_NAME", jstr "GTH_POTENTIALS");
          ("QS", JDict [
             ("EPS_DEFAULT", jfloat 1 (-12));
             ("WF_INTERPOLATION", jstr "ps");
             ("EXTRAPOLATION_ORDER", jint 3)]);
          ("MGRID", JDict [
             ("NGRIDS", jint 4);
             ("CUTOFF", jint 280);
             ("REL_CUTOFF", jint 30)]);
          ("XC", JDict [
             ("XC_FUNCTIONAL", JDict [("_", jstr "LDA")])]);
          ("POISSON", JDict [
             ("PERIODIC", jstr "none");
             ("PSOLVER", jstr "MT")]);
          ("SCF", JDict [
             ("PRINT", JDict [
                ("RESTART", JDict [("_", jstr "ON")])])])]);
       ("SUBSYS", JDict [
          ("KIND", kind_sections)])])
  ].

Definition example_restart (w : world) (cp2k_code : pyval) : script unit :=
  print "Testing CP2K restart...";;
  let pwd := script_dir w in
  (* structure *)
  let atoms1 := center (Dec 2 0) (molecule "H2O") in
  let structure1 := VNode (StructureData atoms1) in
  (* basis set *)
  let basis_file :=
    VNode (SinglefileData (os_path_join pwd [".."; "files"; "BASIS_MOLOPT"])) in
  (* pseudopotentials *)
  let pseudo_file :=
    VNode (SinglefileData (os_path_join pwd [".."; "files"; "GTH_POTENTIALS"])) in
  (* CP2K input *)
  params1 ← (d ← literal params1_dict; Dict d);
  (* Construct process builder *)
  builder ← get_builder Cp2kCalculation;
  (* Set up the first calculation *)
  setattr builder ["structure"] structure1;;
  setattr builder ["parameters"] params1;;
  setattr builder ["code"] cp2k_code;;
  (f ← new_dict [("basis", basis_file); ("pseudo", pseudo_file)];
   setattr builder ["file"] f);;
  (r ← literal one_process;
   setattr builder ["metadata"; "options"; "resources"] r);;
  setattr builder ["metadata"; "options"; "max_wallclock_seconds"]
          (vint (1 * 2 * 60));;
  print "submitted calculation 1:";;
  calc1 ← run w builder;
  (* check walltime exceeded *)
  (p ← output calc1 "output_parameters";
   v ← dict_attr p "exceeded_walltime";
   py_assert (is_True v));;
  (p ← output calc1 "output_parameters";
   v ← dict_attr p "energy";
   py_assert (is_not_None v));;
  py_assert (has_output calc1 "output_structure");;
  print "OK, walltime exceeded as expected";;
  (* Set up and start the second calculation *)
  (* parameters *)
  params2 ← (d ← get_dict params1; deepcopy d);
  (g ← getitem params2 "GLOBAL"; delitem g "WALLTIME");;
  (m ← getitem params2 "MOTION";
   g ← getitem m "GEO_OPT";
   delitem g "MAX_FORCE");;
  let restart_wfn_fn := "./parent_calc/aiida-RESTART.wfn" in
  (f ← getitem params2 "FORCE_EVAL";
   d ← getitem f "DFT";
   setitem d "RESTART_FILE_NAME" (vstr restart_wfn_fn));;
  (f ← getitem params2 "FORCE_EVAL";
   d ← getitem f "DFT";
   s ← getitem d "SCF";
   setitem s "SCF_GUESS" (vstr "RESTART"));;
  (e ← literal (JDict [("RESTART_FILE_NAME",
                        jstr "./parent_calc/aiida-1.restart")]);
   setitem params2 "EXT_RESTART" e);;
  params2 ← Dict params2;
  (* structure *)
  let atoms2 :=
    scale_positions (Dec 0 0) (center (Dec 2 0) (molecule "H2O")) in
  let structure2 := VNode (StructureData atoms2) in
  (* Update the process builder. *)
  setattr builder ["structure"] structure2;;
  setattr builder ["parameters"] params2;;
  (f ← output calc1 "remote_folder";
   setattr builder ["parent_calc_folder"] (VNode f));;
  print "submitted calculation 2";;
  calc2 ← run w builder;
  (* check energy *)
  let expected_energy := FLit (Dec (-171566455959) (-10)) in
  (p ← output calc2 "output_parameters";
   e ← dict_attr p "energy";
   close ← lift (abs_diff_lt w e expected_energy (FLit (Dec 1 (-10))));
   if close : bool then print "OK, energy has the expected value"
   else mret tt);;
  (* if restart wfn is not found it will create a warning *)
  (p ← output calc2 "output_parameters";
   n ← dict_attr p "nwarnings";
   py_assert (py_eq_int w n 1));;
  (* ensure that this warning originates from overwritting coordinates *)
  out ← (r ← output calc2 "retrieved"; get_object_content r "aiida.out");
  found ← re_search "WARNING .* :: Overwriting coordinates" out;
  py_assert found.

Definition cli (w : world) (codelabel : string) : script unit :=
  code ← try_except
    (lift (get_from_string w codelabel))
    (fun e =>
       match e with
       | NotExistent =>
           Some (s ← lift (str_format w "The code '{}' does not exist"
                                      [PyStr codelabel]);
                 print s;;
                 sys_exit 1)
       | _ => None
       end);
  example_restart w (VNode code).

End Restart.

(** examples/single_calculations/example_structure_through_file.py *)
Module StructureThroughFile.

Definition Cp2kCalculation : process := CalculationFactory "cp2k".

Definition parameters_dict (abc : string) : json :=
  JDict [
    ("FORCE_EVAL", JDict [
       ("METHOD", jstr "Quickstep");
       ("DFT", JDict [
          ("BASIS_SET_FILE_NAME", jstr "BASIS_MOLOPT");
          ("POTENTIAL_FILE_NAME", jstr "GTH_POTENTIALS");
          ("QS", JDict [
             ("EPS_DEFAULT", jfloat 1 (-12));
             ("WF_INTERPOLATION", jstr "ps");
             ("EXTRAPOLATION_ORDER", jint 3)]);
          ("MGRID", JDict [
             ("NGRIDS", jint 4);
             ("CUTOFF", jint 280);
             ("REL_CUTOFF", jint 30)]);
          ("XC", JDict [
             ("XC_FUNCTIONAL", JDict [("_", jstr "LDA")])]);
          ("POISSON", JDict [
             ("PERIODIC", jstr "none");
             ("PSOLVER", jstr "MT")])]);
       ("SUBSYS", JDict [
          ("TOPOLOGY", JDict [
             ("COORD_FILE_NAME", jstr "water.xyz");
             ("COORD_FILE_FORMAT", jstr "XYZ")]);
          ("CELL", JDict [
             ("ABC", jstr abc)]);
          ("KIND", kind_sections)])])
  ].

Definition example_structure_through_file (w : world) (cp2k_code : pyval)
  : script unit :=
  print ("Testing CP2K ENERGY on H2O (DFT). " +:+
         "Water molecule is provided through a file input...");;
  let pwd := script_dir w in
  (* structure *)
  let atoms := center (Dec 2 0) (molecule "H2O") in
  let structure := VNode (StructureData atoms) in
  (* basis set *)
  let basis_file :=
    VNode (SinglefileData (os_path_join pwd [".."; "files"; "BASIS_MOLOPT"])) in
  (* pseudopotentials *)
  let pseudo_file :=
    VNode (SinglefileData (os_path_join pwd [".."; "files"; "GTH_POTENTIALS"])) in
  (* parameters *)
  parameters ← (
    abc ← lift (str_format w "{:<15}  {:<15}  {:<15}" (cell_diagonal atoms));
    d ← literal (parameters_dict abc);
    Dict d);
  (* Construct process builder *)
  builder ← get_builder Cp2kCalculation;
  setattr builder ["parameters"] parameters;;
  setattr builder ["code"] cp2k_code;;
  (f ← new_dict [("basis", basis_file); ("pseudo", pseudo_file);
                 ("water", structure)];
   setattr builder ["file"] f);;
  (r ← literal one_process;
   setattr builder ["metadata"; "options"; "resources"] r);;
  setattr builder ["metadata"; "options"; "max_wallclock_seconds"]
          (vint (1 * 3 * 60));;
  print "Submitted calculation...";;
  run w builder;;
  mret tt.

Definition cli (w : world) (codelabel : string) : script unit :=
  code ← try_except
    (lift (get_from_string w codelabel))
    (fun e =>
       match e with
       | NotExistent =>
           Some (s ← lift (str_format w "The code '{}' does not exist"
                                      [PyStr codelabel]);
                 print s;;
                 sys_exit 1)
       | _ => None
       end);
  example_structure_through_file w (VNode code).

End StructureThroughFile.

(** examples/workchains/example_base.py *)
Module Base.

Definition Cp2kBaseWorkChain : process := WorkflowFactory "cp2k.base".

Definition parameters_dict : json :=
  JDict [
    ("FORCE_EVAL", JDict [
       ("METHOD", jstr "Quickstep");
       ("DFT", JDict [
          ("BASIS_SET_FILE_NAME", jstr "BASIS_MOLOPT");
          ("POTENTIAL_FILE_NAME", jstr "GTH_POTENTIALS");
          ("QS", JDict [
             ("EPS_DEFAULT", jfloat 1 (-12));
             ("WF_INTERPOLATION", jstr "ps");
             ("EXTRAPOLATION_ORDER", jint 3)]);
          ("MGRID", JDict [
             ("NGRIDS", jint 4);
             ("CUTOFF", jint 280);
             ("REL_CUTOFF", jint 30)]);
          ("XC", JDict [
             ("XC_FUNCTIONAL", JDict [("_", jstr "LDA")])]);
          ("POISSON", JDict [
             ("PERIODIC", jstr "none");
             ("PSOLVER", jstr "MT")])]);
       ("SUBSYS", JDict [
          ("KIND", kind_sections)])])
  ].

Definition example_base (w : world) (cp2k_code : pyval) : script unit :=
  let pwd := script_dir w in
  print "Testing CP2K ENERGY on H2O (DFT) through a workchain...";;
  (* basis set *)
  let basis_file :=
    VNode (SinglefileData (os_path_join pwd [".."; "files"; "BASIS_MOLOPT"])) in
  (* pseudopotentials *)
  let pseudo_file :=
    VNode (SinglefileData (os_path_join pwd [".."; "files"; "GTH_POTENTIALS"])) in
  (* structure *)
  let atoms := center (Dec 2 0) (molecule "H2O") in
  let structure := VNode (StructureData atoms) in
  (* parameters *)
  parameters ← (d ← literal parameters_dict; Dict d);
  (* Construct process builder *)
  builder ← get_builder Cp2kBaseWorkChain;
  setattr builder ["cp2k"; "structure"] structure;;
  setattr builder ["cp2k"; "parameters"] parameters;;
  setattr builder ["cp2k"; "code"] cp2k_code;;
  (f ← new_dict [("basis", basis_file); ("pseudo", pseudo_file)];
   setattr builder ["cp2k"; "file"] f);;
  (r ← literal one_process;
   setattr builder ["cp2k"; "metadata"; "options"; "resources"] r);;
  setattr builder ["cp2k"; "metadata"; "options"; "max_wallclock_seconds"]
          (vint (1 * 3 * 60));;
  print "Submitted calculation...";;
  run w builder;;
  mret tt.

Definition cli (w : world) (codelabel : string) : script unit :=
  code ← try_except
    (lift (get_from_string w codelabel))
    (fun e =>
       match e with
       | NotExistent =>
           Some (s ← lift (str_format w "The code '{}' does not exist"
                                      [PyStr codelabel]);
                 print s;;
                 sys_exit 1)
       | _ => None
       end);
  example_base w (VNode code).

End Base.

(** examples/workchains/example_multistage_h2o_testfile.py *)
Module Multistage.

Definition Cp2kMultistageWorkChain : process :=
  WorkflowFactory "cp2k.multistage".

Definition example_multistage_h2o_testfile (w : world) (cp2k_code : pyval)
  : script unit :=
  print "Testing CP2K multistage workchain on H2O";;
  print ">>> Loading a custom protocol from file testfile.yaml";;
  let thisdir := script_dir w in
  let structure :=
    VNode (StructureData
             (io_read (os_path_join thisdir [".."; "data"; "h2o.xyz"]))) in
  (* Construct process builder *)
  builder ← get_builder Cp2kMultistageWorkChain;
  setattr builder ["structure"] structure;;
  setattr builder ["protocol_yaml"]
    (VNode (SinglefileData
              (abspath w (os_path_join thisdir
                                       [".."; "data"; "testfile.yaml"]))));;
  setattr builder ["cp2k_base"; "cp2k"; "code"] cp2k_code;;
  (r ← literal one_process;
   setattr builder ["cp2k_base"; "cp2k"; "metadata"; "options"; "resources"]
           r);;
  setattr builder
          ["cp2k_base"; "cp2k"; "metadata"; "options"; "max_wallclock_seconds"]
          (vint (1 * 3 * 60));;
  run w builder;;
  mret tt.

Definition cli (w : world) (codelabel : string) : script unit :=
  code ← try_except
    (lift (get_from_string w codelabel))
    (fun e =>
       match e with
       | NotExistent =>
           Some (s ← lift (str_format w "The code '{}' does not exist"
                                      [PyStr codelabel]);
                 print s;;
                 sys_exit 1)
       | _ => None
       end);
  example_multistage_h2o_testfile w (VNode code).

End Multistage.

(** ** Observations *)

(** What a script leaves behind when started in a fresh interpreter. *)
Definition outcome {A} (m : script A) : result A := (m initial).1.
Definition events {A} (m : script A) : list event := trace (m initial).2.

(** A submission: the builder, its process class, and the inputs and heap
    the engine was given. *)
Abbreviation submission :=
  (nat * process * list (list string * pyval) * list pyobj)%type.

Definition runs (t : list event) : list submission :=
  omap (fun e => match e with
                 | ERun b p i h => Some (b, p, i, h)
                 | _ => None
                 end) t.

(** The operations of a trace without their payload; prints are left out. *)
Inductive op :=
| GetBuilder (proc : process)
| SetAttr (path : list string)
| Submit
| Assert (holds : bool).

Definition op_of (e : event) : option op :=
  match e with
  | EPrint _ => None
  | EGetBuilder p _ => Some (GetBuilder p)
  | ESetAttr _ path _ => Some (SetAttr path)
  | ERun _ _ _ _ => Some Submit
  | EAssert c => Some (Assert c)
  end.

Definition skeleton (t : list event) : list op := omap op_of t.

Definition is_setattr (e : event) : bool :=
  match e with
  | ESetAttr _ _ _ => true
  | _ => false
  end.

(** Every submission of the trace is given exactly the inputs that the
    attribute assignments before it have put on the builder. *)
Fixpoint assembled (acc : list (list string * pyval)) (t : list event)
  : Prop :=
  match t with
  | [] => True
  | EGetBuilder _ _ :: t' => assembled [] t'
  | ESetAttr _ path v :: t' => assembled (assoc_set path v acc) t'
  | ERun _ _ i _ :: t' => i = acc /\ assembled acc t'
  | _ :: t' => assembled acc t'
  end.

(** The events that follow the last submission. *)
Definition after_last_run (t : list event) : list event :=
  fold_left (fun acc e => if is_run e then [] else acc ++ [e]) t [].

(** An event that uses the process class [P] through its builder [b]
    only: the builder is obtained, assigned to, and submitted. *)
Definition builder_interface (P : process) (b : nat) (e : event) : Prop :=
  match e with
  | EPrint _ => True
  | EGetBuilder p b' => p = P /\ b' = b
  | ESetAttr b' _ _ => b' = b
  | ERun b' p _ _ => b' = b /\ p = P
  | EAssert _ => False
  end.

(** The dictionary found under an input of a submission. *)
Definition input_dict (i : list (list string * pyval)) (h : list pyobj)
  (path : list string) : option (list (string * pyval)) :=
  match assoc_get path i with
  | Some (VRef l) =>
      match h !! l with
      | Some (ODict items) => Some items
      | _ => None
      end
  | _ => None
  end.

(** The content of the [Dict] node found under an input of a submission. *)
Definition input_json (i : list (list string * pyval)) (h : list pyobj)
  (path : list string) : option json :=
  match assoc_get path i with
  | Some (VDict l) => reify (S (length h)) h (VRef l)
  | _ => None
  end.

(** Every data node handed to a submission, directly or inside a
    dictionary input. *)
Definition attached_nodes (i : list (list string * pyval)) (h : list pyobj)
  : list node :=
  flat_map (fun kv =>
    match kv.2 with
    | VNode n => [n]
    | VRef l =>
        match h !! l with
        | Some (ODict items) =>
            omap (fun kv' => match kv'.2 with
                             | VNode n => Some n
                             | _ => None
                             end) items
        | _ => []
        end
    | _ => []
    end) i.

(** The two files of [examples/files] that three of the scripts attach. *)
Definition basis_and_pseudo (w : world) : list (string * pyval) :=
  [("basis",
    VNode (SinglefileData
             (os_path_join (script_dir w) [".."; "files"; "BASIS_MOLOPT"])));
   ("pseudo",
    VNode (SinglefileData
             (os_path_join (script_dir w) [".."; "files"; "GTH_POTENTIALS"])))].

(** The H2O molecule in its box, as three of the scripts build it. *)
Definition h2o : atoms := center (Dec 2 0) (molecule "H2O").

(** ** Paths into nested data *)

Fixpoint json_get (p : list string) (j : json) : option json :=
  match p with
  | [] => Some j
  | k :: p' =>
      match j with
      | JDict items =>
          match assoc_get k items with
          | Some c => json_get p' c
          | None => None
          end
      | _ => None
      end
  end.

(** The entry at path [p] replaced by [f] of it ([None] stands for no
    entry); data in which the dictionary holding the entry does not exist
    is left as it is. *)
Fixpoint json_update (p : list string) (f : option json -> option json)
  (j : json) : json :=
  match p, j with
  | [k], JDict items =>
      JDict match f (assoc_get k items) with
            | Some v => assoc_set k v items
            | None => assoc_del k items
            end
  | k :: p', JDict items =>
      match assoc_get k items with
      | Some c => JDict (assoc_set k (json_update p' f c) items)
      | None => j
      end
  | _, _ => j
  end.

Definition json_set (p : list string) (v : json) : json -> json :=
  json_update p (fun _ => Some v).

Definition json_del (p : list string) : json -> json :=
  json_update p (fun _ => None).

(** Two paths neither of which leads through the other. *)
Definition apart (p q : list string) : Prop :=
  ~ p `prefix_of` q /\ ~ q `prefix_of` p.

(** The five edits [example_restart] makes to the copy of its first
    parameter set. *)
Definition restart_edits (j : json) : json :=
  json_set ["EXT_RESTART"]
    (JDict [("RESTART_FILE_NAME", jstr "./parent_calc/aiida-1.restart")])
  (json_set ["FORCE_EVAL"; "DFT"; "SCF"; "SCF_GUESS"] (jstr "RESTART")
  (json_set ["FORCE_EVAL"; "DFT"; "RESTART_FILE_NAME"]
    (jstr "./parent_calc/aiida-RESTART.wfn")
  (json_del ["MOTION"; "GEO_OPT"; "MAX_FORCE"]
  (json_del ["GLOBAL"; "WALLTIME"] j)))).

(** ** What the assertions of [example_restart] say *)

(** After the first run: the walltime flag is [True], there is an energy,
    and there is an output structure. *)
Definition first_run_checks (calc1 : gmap string node) : Prop :=
  exists attrs energy,
    calc1 !! "output_parameters" = Some (StoredDict attrs) /\
    attrs !! "exceeded_walltime" = Some (JAtom (PyBool true)) /\
    attrs !! "energy" = Some energy /\ energy <> JAtom PyNone /\
    is_Some (calc1 !! "output_structure").



(** The three conditions as the script evaluates them, in its order. *)
Definition first_checks (calc1 : gmap string node) : bool :=
  match calc1 !! "output_parameters" with
  | Some n =>
      match node_attributes n with
      | Some attrs =>
          match attrs !! "exceeded_walltime" with
          | Some v =>
              is_True v &&
              match attrs !! "energy" with
              | Some e => is_not_None e && has_output calc1 "output_structure"
              | None => false
              end
          | None => false
          end
      | None => false
      end
  | None => false
  end.

Definition second_checks (w : world) (calc2 : gmap string node) : bool :=
  match calc2 !! "output_parameters" with
  | Some n =>
      match node_attributes n with
      | Some attrs =>
          match attrs !! "nwarnings" with
          | Some v =>
              py_eq_int w v 1 &&
              match calc2 !! "retrieved" with
              | Some f =>
                  match node_objects f with
                  | Some objects =>
                      match objects !! "aiida.out",
                            re_compile "WARNING .* :: Overwriting coordinates"
                      with
                      | Some out, Some r => search r out
                      | _, _ => false
                      end
                  | None => false
                  end
              | None => false
              end
          | None => false
          end
      | None => false
      end
  | None => false
  end.

Definition energy_check (w : world) (calc2 : gmap string node) : bool :=
  match calc2 !! "output_parameters" with
  | Some n =>
      match node_attributes n with
      | Some attrs =>
          match attrs !! "energy" with
          | Some e =>
              match abs_diff_lt w e (FLit (Dec (-171566455959) (-10)))
                                (FLit (Dec 1 (-10))) with
              | inr close => close
              | inl _ => false
              end
          | None => false
          end
      | None => false
      end
  | None => false
  end.

(** The message [s] was printed. *)
Definition printed (s : string) (t : list event) : bool :=
  existsb (fun e => match e with
                    | EPrint s' => bool_decide (s' = s)
                    | _ => false
                    end) t.

(** The inputs [example_restart] gives its first submission, and the
    complete sequence of its operations when it runs to the end. *)
Definition restart_inputs : list (list string) :=
  [["structure"]; ["parameters"]; ["code"]; ["file"];
   ["metadata"; "options"; "resources"];
   ["metadata"; "options"; "max_wallclock_seconds"]].

Definition restart_operations : list op :=
  [GetBuilder (CalculationFactory "cp2k")] ++
  map SetAttr restart_inputs ++
  [Submit; Assert true; Assert true; Assert true;
   SetAttr ["structure"]; SetAttr ["parameters"];
   SetAttr ["parent_calc_folder"];
   Submit; Assert true; Assert true].

(** ** A concrete session *)

Module Demo.

Definition calc1 : gmap string node :=
  list_to_map [
    ("output_parameters",
     StoredDict (list_to_map [("exceeded_walltime", JAtom (PyBool true));
                              ("energy", jfloat (-1716) (-2))]));
    ("output_structure", StructureData (molecule "H2O"));
    ("remote_folder", RemoteData 7);
    ("retrieved", FolderData ∅)].

Definition calc2 : gmap string node :=
  list_to_map [
    ("output_parameters",
     StoredDict (list_to_map [("nwarnings", jint 1);
                              ("energy", jfloat (-1716) (-2))]));
    ("remote_folder", RemoteData 8);
    ("retrieved",
     FolderData (list_to_map [
       ("aiida.out",
        " *** WARNING in input_cp2k_restarts.F:915 :: Overwriting coordinates")]))].

(** A registry that knows one code, and an engine whose first calculation
    runs out of time and whose second one ends with a single warning and
    an energy other than the expected one. *)
Definition w : world := {|
  script_dir := "/aiida-cp2k/examples/scripts";
  abspath := fun p => p;
  float_str := fun _ => "4.0";
  abs_diff_lt := fun _ _ _ => inr false;
  float_eq_int := fun _ _ => false;
  get_from_string := fun l =>
    if bool_decide (l = "cp2k@localhost") then inr (Code l) else inl NotExistent;
  engine := fun n _ _ _ =>
    match n with
    | O => inr calc1
    | _ => inr calc2
    end
|}.

Definition code : pyval := VNode (Code "cp2k@localhost").

End Demo.

(** The entries that [restart_edits] removes or adds. *)
Definition restart_changes : list (list string) :=
  [["GLOBAL"; "WALLTIME"];
   ["MOTION"; "GEO_OPT"; "MAX_FORCE"];
   ["FORCE_EVAL"; "DFT"; "RESTART_FILE_NAME"];
   ["FORCE_EVAL"; "DFT"; "SCF"; "SCF_GUESS"];
   ["EXT_RESTART"]].

(** The data below a value, as the heap has it now. *)
Definition snapshot (v : pyval) : script (option json) := fun st =>
  (Ok (reify (S (length (heap st))) (heap st) v), st).

(** ** Further observations *)

(** A string of spaces. *)
Fixpoint all_spaces (s : string) : Prop :=
  match s with
  | "" => True
  | String c r => c = " "%char /\ all_spaces r
  end.

(** [field] is [s] left-aligned in [width] columns: [s], then nothing but
    spaces, as many as bring the field to the width; a text as long as
    the width or longer is the field as it is. *)
Definition left_aligned (width : nat) (s field : string) : Prop :=
  exists fill,
    field = s +:+ fill /\ all_spaces fill /\
    String.length field = Nat.max width (String.length s).

(** The lines a script has printed, in order. *)
Definition prints (t : list event) : list string :=
  omap (fun e => match e with
                 | EPrint s => Some s
                 | _ => None
                 end) t.

(** The plain data found under an input of a submission. *)
Definition input_data (i : list (list string * pyval)) (h : list pyobj)
  (path : list string) : option json :=
  match assoc_get path i with
  | Some v => reify (S (length h)) h v
  | None => None
  end.

(** A session like [Demo.w] with a registry and two engine answers of
    one's choice. *)
Definition session (registry : string -> exn + node)
  (first second : exn + gmap string node) : world := {|
  script_dir := script_dir Demo.w;
  abspath := abspath Demo.w;
  float_str := float_str Demo.w;
  abs_diff_lt := abs_diff_lt Demo.w;
  float_eq_int := float_eq_int Demo.w;
  get_from_string := registry;
  engine := fun n _ _ _ =>
    match n with
    | O => first
    | _ => second
    end
|}.

(** Outputs of a calculation that finished within its walltime. *)
Definition finished_in_time : gmap string node :=
  list_to_map [
    ("output_parameters",
     StoredDict (list_to_map [("exceeded_walltime", JAtom (PyBool false));
                              ("energy", jfloat (-1716) (-2))]));
    ("output_structure", StructureData (molecule "H2O"));
    ("remote_folder", RemoteData 7)].

(** Outputs that pass the checks of the first run but have no remote
    folder. *)
Definition without_remote_folder : gmap string node :=
  list_to_map [
    ("output_parameters",
     StoredDict (list_to_map [("exceeded_walltime", JAtom (PyBool true));
                              ("energy", jfloat (-1716) (-2))]));
    ("output_structure", StructureData (molecule "H2O"))].

(** A directory name as [os.path.join] continues it: a separator is added
    unless the name is empty or ends in one. *)
Definition as_directory (d : string) : string :=
  if bool_decide (d = "") || ends_with_sep d then d else d +:+ "/".

(** A submission whose parameters name the basis-set file and the
    pseudopotential file that it attaches from [examples/files]; [under]
    is the namespace of the inputs of the calculation. *)
Definition names_its_files (w : world) (under : list string)
  (s : submission) : Prop :=
  exists params basis pseudo more,
    input_json s.1.2 s.2 (under ++ ["parameters"]) = Some params /\
    json_get ["FORCE_EVAL"; "DFT"; "BASIS_SET_FILE_NAME"] params
    = Some (jstr basis) /\
    json_get ["FORCE_EVAL"; "DFT"; "POTENTIAL_FILE_NAME"] params
    = Some (jstr pseudo) /\
    input_dict s.1.2 s.2 (under ++ ["file"])
    = Some (("basis",
             VNode (SinglefileData
                      (as_directory (script_dir w) +:+ "../files/" +:+ basis)))
            :: ("pseudo",
                VNode (SinglefileData
                         (as_directory (script_dir w) +:+ "../files/" +:+
                          pseudo)))
            :: more).

(** ** Copies *)


(** [hx] has every object of [h], except perhaps those at [B]. *)
Definition agree_off (B : nat -> Prop) (h hx : list pyobj) : Prop :=
  forall x o, ~ B x -> h !! x = Some o -> hx !! x = Some o.

(** [v'] holds in [h] the data that [v] holds in [h0], and keeps holding
    it whatever becomes of the objects at [B]. *)
Definition copy_of (h0 h : list pyobj) (B : nat -> Prop) (v v' : pyval)
  : Prop :=
  forall k j, reify k h0 v = Some j ->
              forall hx, agree_off B h hx -> reify k hx v' = Some j.

(** The object at [l] holds [v], directly or further down: whatever fuel
    reads the object reads [v] with less. *)
Definition above (h0 : list pyobj) (l : nat) (v : pyval) : Prop :=
  forall k, is_Some (reify k h0 (VRef l)) ->
            exists k', k' < k /\ is_Some (reify k' h0 v).

(** What a call of the copying function is given, and what it gives
    back: the memo pairs every object either with its finished copy or
    with the unfinished copy of an object that holds the value being
    copied; the unfinished copies are the objects at [B]. *)
Definition memo_before (h0 h : list pyobj) (B : nat -> Prop)
  (memo : list (nat * nat)) (vs : list pyval) : Prop :=
  forall l l', assoc_get l memo = Some l' ->
               Forall (above h0 l) vs \/ copy_of h0 h B (VRef l) (VRef l').

Definition memo_after (h0 h' : list pyobj) (B : nat -> Prop)
  (memo memo' : list (nat * nat)) : Prop :=
  forall l l', assoc_get l memo' = Some l' ->
               assoc_get l memo = Some l' \/ copy_of h0 h' B (VRef l) (VRef l').

Definition copies (h0 : list pyobj)
  (rec : pyval -> list (nat * nat) -> list pyobj -> copied pyval) : Prop :=
  forall v k0 B memo h v' memo' h',
    rec v memo h = inr (v', memo', h') ->
    is_Some (reify k0 h0 v) ->
    h0 `prefix_of` h ->
    (forall b, B b -> b < length h) ->
    memo_before h0 h B memo [v] ->
    h `prefix_of` h' /\
    memo_after h0 h' B memo memo' /\
    copy_of h0 h' B v v'.

(** * Properties *)

(** ** Running a script step by step *)

Lemma bind_unfold {A B} (m : script A) (f : A -> script B) st :
  (m ≫= f) st = and_then f (m st).
Proof. reflexivity. Qed.

Lemma bind_assoc {A B C} (m : script A) (g : A -> script B)
  (f : B -> script C) st :
  ((m ≫= g) ≫= f) st = (m ≫= (fun a => g a ≫= f)) st.
Proof. rewrite !bind_unfold. destruct (m st) as [[a|e] st']; reflexivity. Qed.

Lemma bind_ret_r {A} (m : script A) st : m st = (m ≫= mret) st.
Proof. rewrite bind_unfold. destruct (m st) as [[a|e] st']; reflexivity. Qed.

Lemma re_search_compiled p r s :
  re_compile p = Some r -> re_search p s = mret (search r s).
Proof. unfold re_search. intros ->. reflexivity. Qed.

Lemma node_attributes_Some n attrs :
  node_attributes n = Some attrs -> n = StoredDict attrs.
Proof. destruct n; simpl; congruence. Qed.


Lemma is_True_true v : is_True v = true -> v = JAtom (PyBool true).
Proof. destruct v as [[| [] | | |]| |]; simpl; congruence. Qed.

Lemma is_not_None_true v : is_not_None v = true -> v <> JAtom PyNone.
Proof. intros H ->. discriminate. Qed.

Lemma is_not_None_false v : is_not_None v = false -> v = JAtom PyNone.
Proof. destruct v as [[]| |]; simpl; congruence. Qed.

Lemma has_output_true outs k : has_output outs k = true -> is_Some (outs !! k).
Proof. unfold has_output. intros H. by apply bool_decide_eq_true in H. Qed.

Lemma has_output_false outs k : has_output outs k = false -> outs !! k = None.
Proof.
  unfold has_output. intros H. apply bool_decide_eq_false in H.
  by apply eq_None_not_Some.
Qed.

(** The state a step ends in is computed; a step whose result depends on
    the world is split into its cases. *)
Ltac head_eval H :=
  lazymatch type of H with
  | and_then ?f (?m ?st) = _ =>
      let v := eval vm_compute in (m st) in
      change (m st) with v in H
  end.

Ltac is_bool_lit c :=
  lazymatch c with
  | true => idtac
  | false => idtac
  end.

(** A value already known from an earlier step is reused. *)
Ltac case_on H x :=
  first [ match goal with
          | H' : x = _ |- _ => rewrite H' in H; cbv beta iota in H
          end
        | destruct x eqn:? ].

Ltac exec_step H :=
  lazymatch type of H with
  | and_then ?f (Ok ?a, ?st) = ?rhs =>
      change (f a st = rhs) in H; cbv beta in H
  | and_then ?f (Raise ?e, ?st) = ?rhs => change ((Raise e, st) = rhs) in H
  | and_then _ (match ?x with _ => _ end) = _ => case_on H x
  | and_then _ ((match ?x with _ => _ end) _) = _ => case_on H x
  | and_then _ ((if ?x then _ else _) _) = _ => case_on H x
  | and_then _ (?m ?st) = _ =>
      lazymatch m with
      | py_assert ?c => first [ is_bool_lit c; head_eval H | destruct c eqn:? ]
      | re_search ?p ?s =>
          erewrite (re_search_compiled p _ s) in H by (vm_compute; reflexivity);
          let found := fresh "found" in
          match type of H with
          | context [search ?r s] => remember (search r s) as found
          end
      | _ => head_eval H
      end
  | (?m ≫= ?f) ?st = _ =>
      lazymatch m with
      | _ ≫= _ => rewrite (bind_assoc _ _ f st) in H
      | _ => change ((m ≫= f) st) with (and_then f (m st)) in H
      end
  | (_, _) = _ => fail
  | (match ?x with _ => _ end) _ = _ => case_on H x
  | (if ?x then _ else _) _ = _ => case_on H x
  | ?m ?st = (_, _) =>
      lazymatch m with
      | mret _ => fail
      | raise _ => fail
      | _ => rewrite (bind_ret_r m st) in H
      end
  end.

Ltac exec_init H :=
  cbn [script_dir abspath float_str abs_diff_lt float_eq_int get_from_string
       engine] in H;
  cbv zeta in H;
  repeat match type of H with
    | context [os_path_join ?a ?b] =>
        let x := fresh "path" in
        remember (os_path_join a b) as x
    | context [abspath ?a ?b] =>
        let x := fresh "path" in
        remember (abspath a b) as x
    end;
  unfold output, dict_attr, get_object_content, lift in H;
  cbv beta iota in H.

(** All the ways a script can go, each ending in its result and state. *)
Ltac exec H :=
  exec_init H; repeat exec_step H;
  try (injection H as <- <-).

(** ** The command-line entry points *)

Lemma not_exist_message w codelabel :
  str_format w "The code '{}' does not exist" [PyStr codelabel]
  = inr ("The code '" +:+ codelabel +:+ "' does not exist").
Proof. reflexivity. Qed.

(** The shape shared by the four [cli] functions. *)
Lemma cli_unknown_code w codelabel (example : pyval -> script unit) :
  get_from_string w codelabel = inl NotExistent ->
  (code ← try_except
     (lift (get_from_string w codelabel))
     (fun e =>
        match e with
        | NotExistent =>
            Some (s ← lift (str_format w "The code '{}' does not exist"
                                       [PyStr codelabel]);
                  print s;;
                  sys_exit 1)
        | _ => None
        end);
   example (VNode code)) initial
  = (Raise (SystemExit 1),
     State [] [EPrint ("The code '" +:+ codelabel +:+ "' does not exist")]).
Proof.
  intros E. rewrite bind_unfold. unfold try_except. rewrite E.
  cbn [lift raise]. rewrite not_exist_message. reflexivity.
Qed.

Lemma cli_known_code w codelabel c (example : pyval -> script unit) :
  get_from_string w codelabel = inr c ->
  (code ← try_except
     (lift (get_from_string w codelabel))
     (fun e =>
        match e with
        | NotExistent =>
            Some (s ← lift (str_format w "The code '{}' does not exist"
                                       [PyStr codelabel]);
                  print s;;
                  sys_exit 1)
        | _ => None
        end);
   example (VNode code)) initial
  = example (VNode c) initial.
Proof.
  intros E. rewrite bind_unfold. unfold try_except. rewrite E. reflexivity.
Qed.

(** C8. When [Code.get_from_string] raises [NotExistent] for the code
    label, each of the four [cli] entry points prints
    "The code '<codelabel>' does not exist" and exits with status 1; the
    heap stays empty and the trace holds the message only, so no builder
    was made and nothing was submitted. When the label resolves, [cli]
    is the example function applied to the resolved code. *)
Theorem cli_resolves_code_or_exits (w : world) (codelabel : string) :
  (get_from_string w codelabel = inl NotExistent ->
   let stopped :=
     (Raise (SystemExit 1),
      State [] [EPrint ("The code '" +:+ codelabel +:+ "' does not exist")]) in
   Restart.cli w codelabel initial = stopped /\
   StructureThroughFile.cli w codelabel initial = stopped /\
   Base.cli w codelabel initial = stopped /\
   Multistage.cli w codelabel initial = stopped) /\
  (forall c, get_from_string w codelabel = inr c ->
   Restart.cli w codelabel initial
     = Restart.example_restart w (VNode c) initial /\
   StructureThroughFile.cli w codelabel initial
     = StructureThroughFile.example_structure_through_file w (VNode c) initial /\
   Base.cli w codelabel initial = Base.example_base w (VNode c) initial /\
   Multistage.cli w codelabel initial
     = Multistage.example_multistage_h2o_testfile w (VNode c) initial).
Proof.
  split.
  - intros E stopped. subst stopped.
    repeat split; by apply cli_unknown_code.
  - intros c E. repeat split; by apply cli_known_code.
Qed.

Lemma cli_resolves_code_or_exits_demo :
  Restart.cli Demo.w "cp2k@nowhere" initial
  = (Raise (SystemExit 1),
     State [] [EPrint "The code 'cp2k@nowhere' does not exist"]) /\
  Base.cli Demo.w "cp2k@localhost" initial
  = Base.example_base Demo.w Demo.code initial.
Proof.
  split.
  - apply (cli_resolves_code_or_exits Demo.w "cp2k@nowhere"). reflexivity.
  - apply (cli_resolves_code_or_exits Demo.w "cp2k@localhost"). reflexivity.
Defined.

(** ** The scripts that submit once *)

Ltac start_script H :=
  unfold events, outcome;
  match goal with
  | |- context [?f ?w ?c initial] =>
      destruct (f w c initial) as [? ?] eqn:H;
      destruct w as [sd ap fs adl fei gfs eng];
      unfold f in H
  end.

Ltac forall_events :=
  repeat (apply Forall_cons_2; [vm_compute; tauto | ]); apply Forall_nil_2.

(** C5. The two workchain scripts use the class they get from
    [WorkflowFactory] in three ways only: they ask it for a builder, they
    assign attributes of that builder, and they pass that builder to
    [run], once and last. Whatever the engine answers, the trace of
    [example_base] and of [example_multistage_h2o_testfile] is made of
    these operations (and prints) and has the shape given here. *)
Theorem workchains_used_through_builder (w : world) (cp2k_code : pyval) :
  (exists b,
     Forall (builder_interface Base.Cp2kBaseWorkChain b)
            (events (Base.example_base w cp2k_code)) /\
     skeleton (events (Base.example_base w cp2k_code))
     = [GetBuilder (WorkflowFactory "cp2k.base");
        SetAttr ["cp2k"; "structure"];
        SetAttr ["cp2k"; "parameters"];
        SetAttr ["cp2k"; "code"];
        SetAttr ["cp2k"; "file"];
        SetAttr ["cp2k"; "metadata"; "options"; "resources"];
        SetAttr ["cp2k"; "metadata"; "options"; "max_wallclock_seconds"];
        Submit]) /\
  (exists b,
     Forall (builder_interface Multistage.Cp2kMultistageWorkChain b)
            (events (Multistage.example_multistage_h2o_testfile w cp2k_code)) /\
     skeleton (events (Multistage.example_multistage_h2o_testfile w cp2k_code))
     = [GetBuilder (WorkflowFactory "cp2k.multistage");
        SetAttr ["structure"];
        SetAttr ["protocol_yaml"];
        SetAttr ["cp2k_base"; "cp2k"; "code"];
        SetAttr ["cp2k_base"; "cp2k"; "metadata"; "options"; "resources"];
        SetAttr ["cp2k_base"; "cp2k"; "metadata"; "options";
                 "max_wallclock_seconds"];
        Submit]).
Proof.
  split.
  - start_script H. exec H; (eexists; split; [forall_events | reflexivity]).
  - start_script H. exec H; (eexists; split; [forall_events | reflexivity]).
Qed.

(** ** The structure passed as a file *)

(** Three floats under ['{:<15}  {:<15}  {:<15}']: each is written by
    [float_str] and filled with spaces on the right up to 15 characters,
    with two spaces between the fields. *)
Lemma append_empty_r (s : string) : s +:+ "" = s.
Proof.
  induction s as [|c s IH]; [done |].
  change (String c (s +:+ "") = String c s). by rewrite IH.
Qed.

#[local] Arguments pad : simpl never.

Lemma format_cell_diagonal w a :
  str_format w "{:<15}  {:<15}  {:<15}" (cell_diagonal a)
  = inr (pad AlignLeft 15 (float_str w (FCellDiagonal a 0)) +:+ "  " +:+
         pad AlignLeft 15 (float_str w (FCellDiagonal a 1)) +:+ "  " +:+
         pad AlignLeft 15 (float_str w (FCellDiagonal a 2))).
Proof.
  unfold str_format, cell_diagonal. simpl. by rewrite append_empty_r.
Qed.

Lemma all_spaces_spaces n : all_spaces (spaces n).
Proof. induction n; simpl; auto. Qed.

Lemma pad_left_length n s :
  String.length (pad AlignLeft n s) = Nat.max n (String.length s).
Proof.
  unfold pad.
  assert (Happ : forall a b, String.length (a +:+ b)
                             = String.length a + String.length b).
  { intros a b. induction a as [|c a IH]; [done |].
    change (S (String.length (a +:+ b))
            = S (String.length a + String.length b)). by rewrite IH. }
  assert (Hsp : forall k, String.length (spaces k) = k).
  { intros k. induction k as [|k IH]; [done | simpl; by rewrite IH]. }
  rewrite Happ, Hsp. lia.
Qed.

(** ['{:<15}'] on a text: the text, then spaces up to 15 columns. *)
Lemma pad_left_aligned n s : left_aligned n s (pad AlignLeft n s).
Proof.
  exists (spaces (n - String.length s)).
  split; [reflexivity |]. split; [apply all_spaces_spaces |].
  apply pad_left_length.
Qed.

(** C10. In [example_structure_through_file] the builder is never
    assigned a [structure]: the inputs of the one submission are
    [parameters], [code], [file] and the two options. The centred H2O
    molecule is the entry ['water'] of [builder.file], next to the basis
    set and the pseudopotentials; the parameters name the coordinate file
    ['water.xyz'], that key with the [.xyz] suffix; and [CELL/ABC] is
    three fields with two spaces between them, each the text of one
    diagonal length of the centred molecule's cell followed by nothing
    but spaces, and each 15 columns wide (or as wide as its text, when
    that is longer). *)
Theorem structure_given_as_file_input (w : world) (cp2k_code : pyval) :
  let example :=
    StructureThroughFile.example_structure_through_file w cp2k_code in
  let atoms := center (Dec 2 0) (molecule "H2O") in
  exists b i h params,
    runs (events example) = [(b, CalculationFactory "cp2k", i, h)] /\
    skeleton (events example)
    = [GetBuilder (CalculationFactory "cp2k");
       SetAttr ["parameters"];
       SetAttr ["code"];
       SetAttr ["file"];
       SetAttr ["metadata"; "options"; "resources"];
       SetAttr ["metadata"; "options"; "max_wallclock_seconds"];
       Submit] /\
    assoc_get ["structure"] i = None /\
    input_dict i h ["file"]
    = Some [("basis",
             VNode (SinglefileData
                      (os_path_join (script_dir w)
                                    [".."; "files"; "BASIS_MOLOPT"])));
            ("pseudo",
             VNode (SinglefileData
                      (os_path_join (script_dir w)
                                    [".."; "files"; "GTH_POTENTIALS"])));
            ("water", VNode (StructureData atoms))] /\
    input_json i h ["parameters"] = Some params /\
    json_get ["FORCE_EVAL"; "SUBSYS"; "TOPOLOGY"; "COORD_FILE_NAME"] params
    = Some (jstr ("water" +:+ ".xyz")) /\
    exists x y z,
      json_get ["FORCE_EVAL"; "SUBSYS"; "CELL"; "ABC"] params
      = Some (jstr (x +:+ "  " +:+ y +:+ "  " +:+ z)) /\
      left_aligned 15 (float_str w (FCellDiagonal atoms 0)) x /\
      left_aligned 15 (float_str w (FCellDiagonal atoms 1)) y /\
      left_aligned 15 (float_str w (FCellDiagonal atoms 2)) z.
Proof.
  intros example atoms. subst example atoms.
  start_script H.
  cbv zeta in H. rewrite format_cell_diagonal in H.
  cbn [float_str script_dir] in *.
  match type of H with
  | context [lift (inr ?s)] => remember s as abc
  end.
  exec H.
  all: eexists _, _, _, _.
  all: do 6 (split; [first [reflexivity | subst; reflexivity] |]).
  all: subst.
  all: eexists (pad AlignLeft 15 _), (pad AlignLeft 15 _), (pad AlignLeft 15 _).
  all: split; [reflexivity |].
  all: repeat split; apply pad_left_aligned.
Qed.

(** In a session that writes every length as [4.0], each field is that
    text and twelve spaces. *)
Example cell_of_the_demo_session :
  omap (fun s : submission =>
          input_json s.1.2 s.2 ["parameters"]
          ≫= json_get ["FORCE_EVAL"; "SUBSYS"; "CELL"; "ABC"])
       (runs (events (StructureThroughFile.example_structure_through_file
                        Demo.w Demo.code)))
  = [jstr "4.0              4.0              4.0            "].
Proof. vm_compute. reflexivity. Qed.

(** ** [example_restart], one outcome at a time *)

Ltac rewrite_fact :=
  match goal with
  | H : ?b = search _ _ |- _ => rewrite <- H
  | H : ?x = _ |- context [?x] =>
      lazymatch x with
      | ?f _ => rewrite H
      end
  end.

Ltac compute_trace_facts :=
  repeat match goal with
    | |- context [after_last_run ?t] =>
        let v := eval vm_compute in (filter is_setattr (after_last_run t)) in
        change (filter is_setattr (after_last_run t)) with v
    | |- context [printed ?s ?t] =>
        let v := eval vm_compute in (printed s t) in
        change (printed s t) with v
    | |- context [skeleton ?t] =>
        let v := eval vm_compute in (skeleton t) in
        change (skeleton t) with v
    end.

Ltac settle :=
  compute_trace_facts;
  unfold first_checks, second_checks, energy_check;
  cbn [script_dir abspath float_str abs_diff_lt float_eq_int get_from_string
       engine];
  try (let v := eval vm_compute in
         (re_compile "WARNING .* :: Overwriting coordinates") in
       change (re_compile "WARNING .* :: Overwriting coordinates") with v);
  repeat first
    [ reflexivity
    | discriminate
    | eexists
    | split
    | rewrite_fact; cbn [andb]
    | progress intros
    | unfold basis_and_pseudo; cbn [script_dir];
      match goal with
      | H1 : ?p = os_path_join _ _, H2 : ?q = os_path_join _ _ |- _ =>
          rewrite <- H1, <- H2
      end; reflexivity ].

Lemma restart_account w cp2k_code r st :
  Restart.example_restart w cp2k_code initial = (r, st) ->
  let P := CalculationFactory "cp2k" in
  exists i1 h1 rest,
    runs (trace st) = (18, P, i1, h1) :: rest /\
    (map fst i1 = restart_inputs /\
     assoc_get ["structure"] i1 = Some (VNode (StructureData h2o)) /\
     assoc_get ["code"] i1 = Some cp2k_code /\
     assoc_get ["parameters"] i1 = Some (VDict 17) /\
     reify (S (length h1)) h1 (VRef 17) = Some Restart.params1_dict /\
     input_dict i1 h1 ["file"] = Some (basis_and_pseudo w)) /\
    assembled [] (trace st) /\
    match engine w 0 P i1 h1 with
    | inl e =>
        r = Raise e /\ rest = [] /\
        filter is_setattr (after_last_run (trace st)) = []
    | inr calc1 =>
        printed "OK, walltime exceeded as expected" (trace st)
        = first_checks calc1 /\
        (first_checks calc1 = true ->
         take 12 (skeleton (trace st)) = take 12 restart_operations) /\
        match (if first_checks calc1 then calc1 !! "remote_folder"
               else None) with
        | None => rest = [] /\ r <> Ok tt
        | Some rf =>
            exists i2 h2,
              rest = [(18, P, i2, h2)] /\
              filter is_setattr (after_last_run (trace st)) = [] /\
              (map fst i2 = restart_inputs ++ [["parent_calc_folder"]] /\
               assoc_get ["structure"] i2
               = Some (VNode (StructureData (scale_positions (Dec 0 0) h2o))) /\
               assoc_get ["code"] i2 = Some cp2k_code /\
               assoc_get ["parent_calc_folder"] i2 = Some (VNode rf) /\
               assoc_get ["parameters"] i2 = Some (VDict 21) /\
               reify (S (length h2)) h2 (VRef 21)
               = Some (restart_edits Restart.params1_dict) /\
               reify (S (length h2)) h2 (VRef 17)
               = Some Restart.params1_dict /\
               input_dict i2 h2 ["file"] = Some (basis_and_pseudo w)) /\
              match engine w 1 P i2 h2 with
              | inl e => r = Raise e
              | inr calc2 =>
                  r = Ok tt ->
                  second_checks w calc2 = true /\
                  skeleton (trace st) = restart_operations /\
                  printed "OK, energy has the expected value" (trace st)
                  = energy_check w calc2
              end
        end
    end.
Proof.
  intros H P. subst P.
  destruct w as [sd ap fs adl fei gfs eng].
  unfold Restart.example_restart in H.
  exec H.
  all: eexists _, _, _; split; [reflexivity |].
  all: split;
    [ repeat split; try reflexivity;
      unfold basis_and_pseudo; cbn [script_dir];
      rewrite <- ?Heqpath, <- ?Heqpath0; reflexivity | ].
  all: split; [ vm_compute; repeat split; reflexivity | ].
  all: settle.
Qed.

(** ** Appending strings *)

Lemma append_cons c (s1 s2 : string) :
  String c s1 +:+ s2 = String c (s1 +:+ s2).
Proof. reflexivity. Qed.

Lemma append_assoc (s1 s2 s3 : string) :
  (s1 +:+ s2) +:+ s3 = s1 +:+ (s2 +:+ s3).
Proof.
  induction s1 as [|c s1 IH]; [done |].
  rewrite !append_cons. by rewrite IH.
Qed.

Lemma append_eq_empty (s1 s2 : string) :
  s1 +:+ s2 = "" -> s1 = "" /\ s2 = "".
Proof. destruct s1; [done | by rewrite append_cons]. Qed.

(** ** What [re.search] finds *)

Lemma append_eq_cons c s (s1 s2 : string) :
  s1 +:+ s2 = String c s ->
  (s1 = "" /\ s2 = String c s) \/
  (exists s1', s1 = String c s1' /\ s = s1' +:+ s2).
Proof.
  destruct s1 as [|c1 s1]; [by left |].
  rewrite append_cons. intros H. simplify_eq. right. by exists s1.
Qed.

Lemma nullable_spec r : nullable r = true <-> matches r "".
Proof.
  split.
  - induction r; simpl; intros H; try done.
    + constructor.
    + apply andb_true_iff in H as [H1 H2].
      change "" with ("" +:+ ""). constructor; auto.
    + apply orb_true_iff in H as [H|H]; [apply matches_alt_l | apply matches_alt_r];
        auto.
    + constructor.
  - intros H. remember "" as s eqn:Hs.
    induction H; simpl; try done.
    + apply append_eq_empty in Hs as [-> ->]. by rewrite IHmatches1, IHmatches2.
    + by rewrite IHmatches.
    + rewrite IHmatches by done. apply orb_true_r.
Qed.

Lemma deriv_sound c r : forall s, matches (deriv c r) s -> matches r (String c s).
Proof.
  induction r; simpl; intros s H.
  - inversion H.
  - inversion H.
  - case_bool_decide; [| inversion H]. subst. inversion H. constructor.
  - case_bool_decide; [inversion H |]. inversion H. by constructor.
  - assert (Hseq : forall s, matches (RSeq (deriv c r1) r2) s ->
                             matches (RSeq r1 r2) (String c s)).
    { intros s' H'. inversion H'; subst.
      rewrite <- append_cons. constructor; auto. }
    destruct (nullable r1) eqn:Hn; [| by apply Hseq].
    inversion H; subst; [by apply Hseq |].
    change (String c s) with ("" +:+ String c s).
    constructor; [by apply nullable_spec | auto].
  - inversion H; subst; [apply matches_alt_l | apply matches_alt_r]; auto.
  - inversion H; subst. rewrite <- append_cons. constructor; auto.
Qed.

Lemma deriv_complete r s' :
  matches r s' -> forall c s, s' = String c s -> matches (deriv c r) s.
Proof.
  induction 1 as [| c' | c' Hc | r1 r2 s1 s2 H1 IH1 H2 IH2
                 | r1 r2 s0 H1 IH1 | r1 r2 s0 H2 IH2
                 | r | r s1 s2 H1 IH1 H2 IH2]; intros c s Hs; simpl.
  - done.
  - simplify_eq. rewrite bool_decide_eq_true_2 by done. constructor.
  - simplify_eq. rewrite bool_decide_eq_false_2 by done. constructor.
  - apply append_eq_cons in Hs as [[-> ->]|(s1' & -> & ->)].
    + apply nullable_spec in H1. rewrite H1.
      apply matches_alt_r. by apply IH2.
    + assert (matches (RSeq (deriv c r1) r2) (s1' +:+ s2))
        by (constructor; auto).
      destruct (nullable r1); [by apply matches_alt_l | done].
  - apply matches_alt_l. by apply IH1.
  - apply matches_alt_r. by apply IH2.
  - done.
  - apply append_eq_cons in Hs as [[-> ->]|(s1' & -> & ->)].
    + by apply IH2.
    + constructor; auto.
Qed.

Lemma match_prefix_spec s : forall r,
  match_prefix r s = true <-> exists s1 s2, s = s1 +:+ s2 /\ matches r s1.
Proof.
  induction s as [|c s IH]; intros r; simpl.
  - rewrite orb_false_r, nullable_spec. split.
    + intros H. by exists "", "".
    + intros (s1 & s2 & Hs & H). symmetry in Hs.
      by apply append_eq_empty in Hs as [-> _].
  - rewrite orb_true_iff, nullable_spec, IH. split.
    + intros [H|(s1 & s2 & -> & H)].
      * by exists "", (String c s).
      * exists (String c s1), s2. split; [done | by apply deriv_sound].
    + intros (s1 & s2 & Hs & H). symmetry in Hs.
      apply append_eq_cons in Hs as [[-> _]|(s1' & -> & ->)]; [by left |].
      right. exists s1', s2. split; [done |]. by eapply deriv_complete.
Qed.

(** [search] finds the pattern when some part of the string matches it. *)
Lemma search_spec s : forall r,
  search r s = true
  <-> exists s0 s1 s2, s = s0 +:+ s1 +:+ s2 /\ matches r s1.
Proof.
  induction s as [|c s IH]; intros r; simpl.
  - rewrite !orb_false_r, nullable_spec. split.
    + intros H. by exists "", "", "".
    + intros (s0 & s1 & s2 & Hs & H). symmetry in Hs.
      apply append_eq_empty in Hs as [-> Hs].
      by apply append_eq_empty in Hs as [-> _].
  - rewrite orb_true_iff, IH.
    pose proof (match_prefix_spec (String c s) r) as Hp. simpl in Hp.
    rewrite Hp. clear Hp. split.
    + intros [(s1 & s2 & Hs & H)|(s0 & s1 & s2 & -> & H)].
      * by exists "", s1, s2.
      * by exists (String c s0), s1, s2.
    + intros (s0 & s1 & s2 & Hs & H).
      destruct s0 as [|c0 s0].
      * left. by exists s1, s2.
      * rewrite append_cons in Hs. simplify_eq. right. by exists s0, s1, s2.
Qed.

Lemma matches_text_then l r : forall s,
  matches (text_then l r) s <-> exists s', s = l +:+ s' /\ matches r s'.
Proof.
  induction l as [|c l IH]; intros s; simpl.
  - split; [intros H; by exists s | by intros (s' & -> & H)].
  - split.
    + intros H. inversion H as [| | |? ? s1 s2 H1 H2| | | |]; subst.
      inversion H1; subst. apply IH in H2 as (s' & -> & H2).
      by exists s'.
    + intros (s' & -> & H). rewrite append_cons.
      change (String c (l +:+ s')) with (String c "" +:+ (l +:+ s')).
      constructor; [constructor |]. apply IH. by exists s'.
Qed.

Lemma matches_dots s : matches (RStar RDot) s <-> one_line s.
Proof.
  split.
  - intros H. remember (RStar RDot) as r eqn:Hr.
    induction H as [| | | | | | r' | r' s1 s2 H1 _ H2 IH2]; try done.
    simplify_eq. inversion H1; subst. rewrite append_cons. simpl.
    split; [done | by apply IH2].
  - induction s as [|c s IH]; simpl; [constructor |].
    intros [Hc Hs]. change (String c s) with (String c "" +:+ s).
    constructor; [by constructor | auto].
Qed.

Lemma matches_dots_then r s :
  matches (RSeq (RStar RDot) r) s
  <-> exists mid s', s = mid +:+ s' /\ one_line mid /\ matches r s'.
Proof.
  split.
  - intros H. inversion H; subst. eexists _, _. split; [done |].
    split; [by apply matches_dots | done].
  - intros (mid & s' & -> & Hm & H). constructor; [by apply matches_dots | done].
Qed.

(** The pattern of [example_restart]: somewhere in the output there is
    "WARNING ", then any text on the same line, then
    " :: Overwriting coordinates". *)
Lemma overwriting_warning_found r out :
  re_compile "WARNING .* :: Overwriting coordinates" = Some r ->
  search r out = true
  <-> exists before mid after,
        out = before +:+ "WARNING " +:+ mid +:+
              " :: Overwriting coordinates" +:+ after /\
        one_line mid.
Proof.
  intros Hr.
  assert (r = text_then "WARNING "
                (RSeq (RStar RDot)
                   (text_then " :: Overwriting coordinates" REps))) as ->.
  { vm_compute in Hr. by simplify_eq. }
  rewrite search_spec. split.
  - intros (s0 & s1 & s2 & -> & H).
    apply matches_text_then in H as (s' & -> & H).
    apply matches_dots_then in H as (mid & s'' & -> & Hm & H).
    apply matches_text_then in H as (s3 & -> & H).
    inversion H; subst.
    exists s0, mid, s2. split; [| done].
    by rewrite append_empty_r, !append_assoc.
  - intros (before & mid & after & -> & Hm).
    exists before, ("WARNING " +:+ mid +:+ " :: Overwriting coordinates"), after.
    split; [by rewrite !append_assoc |].
    apply matches_text_then. eexists. split; [done |].
    apply matches_dots_then. exists mid, " :: Overwriting coordinates".
    split; [done |]. split; [done |].
    apply matches_text_then. exists "". split; [done | constructor].
Qed.

(** The last assertion of [example_restart] is about one line of the
    output: [re.search] with the pattern of the script always returns,
    and it finds a match exactly when the text has "WARNING ", then any
    characters without a line break, then " :: Overwriting coordinates". *)
Theorem warning_search_finds_the_line (out : string) (st : state) :
  exists found,
    re_search "WARNING .* :: Overwriting coordinates" out st = (Ok found, st) /\
    (found = true
     <-> exists before mid after,
           out = before +:+ "WARNING " +:+ mid +:+
                 " :: Overwriting coordinates" +:+ after /\
           one_line mid).
Proof.
  destruct (re_compile "WARNING .* :: Overwriting coordinates") as [r|] eqn:Hr;
    [| vm_compute in Hr; discriminate].
  exists (search r out). split.
  - by rewrite (re_search_compiled _ _ _ Hr).
  - by apply overwriting_warning_found.
Qed.

(** ** The assertions, as properties of the outputs *)

Lemma first_checks_spec calc1 :
  first_checks calc1 = true <-> first_run_checks calc1.
Proof.
  unfold first_checks, first_run_checks. split.
  - destruct (calc1 !! "output_parameters") as [n|]; [| done].
    destruct (node_attributes n) as [attrs|] eqn:Hn; [| done].
    apply node_attributes_Some in Hn as ->.
    destruct (attrs !! "exceeded_walltime") as [v|] eqn:Hv; [| done].
    destruct (attrs !! "energy") as [e|] eqn:He;
      [| by rewrite andb_false_r].
    intros H. apply andb_true_iff in H as [H1 H].
    apply andb_true_iff in H as [H2 H3].
    apply is_True_true in H1 as ->.
    exists attrs, e. repeat split; try done.
    + by apply is_not_None_true.
    + by apply has_output_true.
  - intros (attrs & e & -> & Hv & He & Hne & Hs). simpl.
    rewrite Hv, He. simpl.
    apply andb_true_iff. split.
    + destruct e as [[]| |]; done.
    + unfold has_output. by apply bool_decide_eq_true.
Qed.





(** ** The three scripts that submit once, in full *)

Ltac settle_once :=
  first [eexists _, _, _, _ | eexists _, _, _];
  cbn [script_dir abspath]; subst;
  repeat split; reflexivity.

Lemma base_account w cp2k_code :
  let t := events (Base.example_base w cp2k_code) in
  exists b h l f,
    runs t
    = [(b, WorkflowFactory "cp2k.base",
        [(["cp2k"; "structure"], VNode (StructureData h2o));
         (["cp2k"; "parameters"], VDict l);
         (["cp2k"; "code"], cp2k_code);
         (["cp2k"; "file"], VRef f);
         (["cp2k"; "metadata"; "options"; "resources"], VRef (S f));
         (["cp2k"; "metadata"; "options"; "max_wallclock_seconds"],
          vint 180)], h)] /\
    reify (S (length h)) h (VRef l) = Some Base.parameters_dict /\
    h !! f = Some (ODict (basis_and_pseudo w)) /\
    reify (S (length h)) h (VRef (S f)) = Some one_process /\
    count_runs t = 1 /\
    filter is_assert t = [] /\
    assembled [] t /\
    filter is_setattr (after_last_run t) = [].
Proof.
  intros t. subst t. start_script H. exec H; settle_once.
Qed.

Lemma multistage_account w cp2k_code :
  let t := events (Multistage.example_multistage_h2o_testfile w cp2k_code) in
  exists b h l,
    runs t
    = [(b, WorkflowFactory "cp2k.multistage",
        [(["structure"],
          VNode (StructureData
                   (io_read (os_path_join (script_dir w)
                                          [".."; "data"; "h2o.xyz"]))));
         (["protocol_yaml"],
          VNode (SinglefileData
                   (abspath w (os_path_join (script_dir w)
                                            [".."; "data"; "testfile.yaml"]))));
         (["cp2k_base"; "cp2k"; "code"], cp2k_code);
         (["cp2k_base"; "cp2k"; "metadata"; "options"; "resources"], VRef l);
         (["cp2k_base"; "cp2k"; "metadata"; "options";
           "max_wallclock_seconds"], vint 180)], h)] /\
    reify (S (length h)) h (VRef l) = Some one_process /\
    count_runs t = 1 /\
    filter is_assert t = [] /\
    assembled [] t /\
    filter is_setattr (after_last_run t) = [].
Proof.
  intros t. subst t. start_script H. exec H; settle_once.
Qed.

Lemma structure_through_file_account w cp2k_code :
  let t :=
    events (StructureThroughFile.example_structure_through_file w cp2k_code) in
  exists b h l f,
    runs t
    = [(b, CalculationFactory "cp2k",
        [(["parameters"], VDict l);
         (["code"], cp2k_code);
         (["file"], VRef f);
         (["metadata"; "options"; "resources"], VRef (S f));
         (["metadata"; "options"; "max_wallclock_seconds"], vint 180)], h)] /\
    h !! f = Some (ODict (basis_and_pseudo w ++
                          [("water", VNode (StructureData h2o))])) /\
    reify (S (length h)) h (VRef (S f)) = Some one_process /\
    count_runs t = 1 /\
    filter is_assert t = [] /\
    assembled [] t /\
    filter is_setattr (after_last_run t) = [].
Proof.
  intros t. subst t. start_script H.
  cbv zeta in H. rewrite format_cell_diagonal in H.
  match type of H with
  | context [lift (inr ?s)] => remember s as abc
  end.
  exec H; settle_once.
Qed.

(** ** What the scripts check after a run *)

(** The account of [example_restart], split by how far the script got:
    [E1] the first answer of the engine, then whether the first
    assertions held and a remote folder was there. *)
Ltac restart_stages H :=
  let Hacc := fresh "Hacc" in
  pose proof (restart_account _ _ _ _ H) as Hacc; cbv zeta in Hacc;
  clear H;
  destruct Hacc as (i1 & h1 & rest & Hruns & Hin1 & Hasm & Hstage);
  destruct Hin1 as (Hkeys1 & Hstruct1 & Hcode1 & Hpar1 & Hreify1 & Hfile1);
  match type of Hstage with
  | match ?x with _ => _ end =>
      destruct x as [e1|calc1] eqn:E1;
      [ destruct Hstage as (Hr & Hrest & Hsets)
      | destruct Hstage as (Hpr & Hskel & Hstage);
        destruct (first_checks calc1) eqn:Hfc;
        [ destruct (calc1 !! "remote_folder") as [rf|] eqn:Hrf;
          [ destruct Hstage as (i2 & h2 & Hrest & Hsets & Hin2 & Hstage);
            destruct Hin2 as (Hkeys2 & Hstruct2 & Hcode2 & Hparent2 & Hpar2 &
                              Hreify2 & Hreify1' & Hfile2)
          | destruct Hstage as (Hrest & Hr) ]
        | destruct Hstage as (Hrest & Hr) ] ]
  end.

(** C1, as the code has it. Three of the four scripts assert nothing:
    whatever the engine answers, the traces of [example_base],
    [example_multistage_h2o_testfile] and
    [example_structure_through_file] hold no assertion. [example_restart]
    alone asserts: when it runs to its end, three assertions that held
    follow its first submission and two follow its second. *)
Theorem assertions_only_in_example_restart (w : world) (cp2k_code : pyval) :
  filter is_assert (events (Base.example_base w cp2k_code)) = [] /\
  filter is_assert
    (events (Multistage.example_multistage_h2o_testfile w cp2k_code)) = [] /\
  filter is_assert
    (events (StructureThroughFile.example_structure_through_file
               w cp2k_code)) = [] /\
  (forall st,
     Restart.example_restart w cp2k_code initial = (Ok tt, st) ->
     skeleton (trace st)
     = [GetBuilder (CalculationFactory "cp2k")] ++
       map SetAttr restart_inputs ++
       [Submit; Assert true; Assert true; Assert true;
        SetAttr ["structure"]; SetAttr ["parameters"];
        SetAttr ["parent_calc_folder"];
        Submit; Assert true; Assert true]).
Proof.
  split; [| split; [| split]].
  - by destruct (base_account w cp2k_code)
      as (? & ? & ? & ? & _ & _ & _ & _ & _ & H & _).
  - by destruct (multistage_account w cp2k_code)
      as (? & ? & ? & _ & _ & _ & H & _).
  - by destruct (structure_through_file_account w cp2k_code)
      as (? & ? & ? & ? & _ & _ & _ & _ & H & _).
  - intros st H. restart_stages H; try discriminate; try done.
    destruct (engine w 1 _ i2 h2); [discriminate |].
    by destruct Hstage as (_ & ? & _).
Qed.

Lemma assertions_only_in_example_restart_demo :
  skeleton (events (Restart.example_restart Demo.w Demo.code))
  = restart_operations.
Proof.
  unfold events.
  apply (assertions_only_in_example_restart Demo.w Demo.code).
  vm_compute. reflexivity.
Defined.

(** C1, as the spec has it, fails on [example_base]: in a session where
    the workchain finishes, the script makes its one submission and ends
    without an assertion. *)
Lemma example_base_asserts_nothing :
  outcome (Base.example_base Demo.w Demo.code) = Ok tt /\
  count_runs (events (Base.example_base Demo.w Demo.code)) = 1 /\
  existsb is_assert (events (Base.example_base Demo.w Demo.code)) = false.
Proof. vm_compute. auto. Qed.

(** C3. The parameters of the first submission of [example_restart] ask
    for a geometry optimisation with a walltime of ['00:00:10'] and a
    maximal force of [1e-20]. When the engine returns from that
    submission, the script gets past its assertions (it prints "OK,
    walltime exceeded as expected") exactly when the output parameters
    have [exceeded_walltime] equal to [True] and an energy that is not
    [None] and the outputs contain ['output_structure']; the three
    assertions are then the operations that follow the submission. *)
Theorem first_run_assertions (w : world) (cp2k_code : pyval)
  (r : result unit) (st : state) :
  Restart.example_restart w cp2k_code initial = (r, st) ->
  exists b i1 h1 rest params1,
    runs (trace st) = (b, CalculationFactory "cp2k", i1, h1) :: rest /\
    input_json i1 h1 ["parameters"] = Some params1 /\
    json_get ["GLOBAL"; "RUN_TYPE"] params1 = Some (jstr "GEO_OPT") /\
    json_get ["GLOBAL"; "WALLTIME"] params1 = Some (jstr "00:00:10") /\
    json_get ["MOTION"; "GEO_OPT"; "MAX_FORCE"] params1
    = Some (jfloat 1 (-20)) /\
    forall calc1,
      engine w 0 (CalculationFactory "cp2k") i1 h1 = inr calc1 ->
      (printed "OK, walltime exceeded as expected" (trace st) = true
       <-> first_run_checks calc1) /\
      (first_run_checks calc1 ->
       exists tail,
         skeleton (trace st)
         = [GetBuilder (CalculationFactory "cp2k")] ++
           map SetAttr restart_inputs ++
           [Submit; Assert true; Assert true; Assert true] ++ tail).
Proof.
  intros H.
  pose proof (restart_account _ _ _ _ H) as Hacc; cbv zeta in Hacc.
  clear H.
  destruct Hacc as (i1 & h1 & rest & Hruns & Hin1 & _ & Hstage).
  destruct Hin1 as (_ & _ & _ & Hpar1 & Hreify1 & _).
  exists 18, i1, h1, rest, Restart.params1_dict.
  split; [done |]. split; [unfold input_json; by rewrite Hpar1 |].
  do 3 (split; [reflexivity |]).
  intros calc1 E1. rewrite E1 in Hstage.
  destruct Hstage as (Hpr & Hskel & _). split.
  - rewrite Hpr. apply first_checks_spec.
  - intros Hc. apply first_checks_spec in Hc.
    exists (drop 11 (skeleton (trace st))).
    rewrite <- (take_drop 11 (skeleton (trace st))) at 1.
    replace (take 11 (skeleton (trace st)))
      with (take 11 (take 12 (skeleton (trace st))))
      by (by rewrite take_take).
    rewrite (Hskel Hc). reflexivity.
Qed.

Lemma first_run_assertions_demo : first_run_checks Demo.calc1.
Proof.
  destruct (first_run_assertions Demo.w Demo.code (Ok tt)
              (Restart.example_restart Demo.w Demo.code initial).2)
    as (b & i1 & h1 & rest & params1 & Hruns & _ & _ & _ & _ & Hchecks).
  { vm_compute. reflexivity. }
  apply (Hchecks Demo.calc1); reflexivity.
Defined.



(** ** What is attached, and when *)

(** C2, as the code has it. [example_base], [example_restart] and
    [example_structure_through_file] hand every submission the basis-set
    file and the pseudopotential file, as the entries ['basis'] and
    ['pseudo'] of the builder's [file] input, together with a structure:
    the first two as the [structure] input, the third as the entry
    ['water'] of [file]. [example_multistage_h2o_testfile] hands over a
    structure and a protocol file only: its inputs are listed here in
    full, and none of them is a basis set or a pseudopotential. *)
Theorem files_attached_before_submission (w : world) (cp2k_code : pyval) :
  (exists b i h,
     runs (events (Base.example_base w cp2k_code))
     = [(b, WorkflowFactory "cp2k.base", i, h)] /\
     assoc_get ["cp2k"; "structure"] i = Some (VNode (StructureData h2o)) /\
     input_dict i h ["cp2k"; "file"] = Some (basis_and_pseudo w)) /\
  (exists b i h,
     runs (events (StructureThroughFile.example_structure_through_file
                     w cp2k_code))
     = [(b, CalculationFactory "cp2k", i, h)] /\
     input_dict i h ["file"]
     = Some (basis_and_pseudo w ++ [("water", VNode (StructureData h2o))])) /\
  (forall r st,
     Restart.example_restart w cp2k_code initial = (r, st) ->
     runs (trace st) <> [] /\
     Forall (fun s : submission =>
               input_dict s.1.2 s.2 ["file"] = Some (basis_and_pseudo w) /\
               exists a,
                 assoc_get ["structure"] s.1.2 = Some (VNode (StructureData a)))
            (runs (trace st))) /\
  (exists b h l,
     runs (events (Multistage.example_multistage_h2o_testfile w cp2k_code))
     = [(b, WorkflowFactory "cp2k.multistage",
         [(["structure"],
           VNode (StructureData
                    (io_read (os_path_join (script_dir w)
                                           [".."; "data"; "h2o.xyz"]))));
          (["protocol_yaml"],
           VNode (SinglefileData
                    (abspath w (os_path_join (script_dir w)
                                             [".."; "data"; "testfile.yaml"]))));
          (["cp2k_base"; "cp2k"; "code"], cp2k_code);
          (["cp2k_base"; "cp2k"; "metadata"; "options"; "resources"], VRef l);
          (["cp2k_base"; "cp2k"; "metadata"; "options";
            "max_wallclock_seconds"], vint 180)], h)] /\
     reify (S (length h)) h (VRef l) = Some one_process).
Proof.
  split; [| split; [| split]].
  - destruct (base_account w cp2k_code)
      as (b & h & l & f & Hruns & _ & Hf & _).
    eexists _, _, _. split; [exact Hruns |]. split; [reflexivity |].
    unfold input_dict. cbn [assoc_get]. simpl. by rewrite Hf.
  - destruct (structure_through_file_account w cp2k_code)
      as (b & h & l & f & Hruns & Hf & _).
    eexists _, _, _. split; [exact Hruns |].
    unfold input_dict. simpl. by rewrite Hf.
  - intros r st H. restart_stages H; rewrite Hruns, Hrest.
    all: split; [done |].
    all: repeat (apply Forall_cons_2; [split; eauto |]); apply Forall_nil_2.
  - destruct (multistage_account w cp2k_code)
      as (b & h & l & Hruns & Hl & _).
    by exists b, h, l.
Qed.

Lemma files_attached_before_submission_demo :
  Forall (fun s : submission =>
            input_dict s.1.2 s.2 ["file"] = Some (basis_and_pseudo Demo.w))
         (runs (events (Restart.example_restart Demo.w Demo.code))) /\
  length (runs (events (Restart.example_restart Demo.w Demo.code))) = 2.
Proof.
  split; [| vm_compute; reflexivity].
  destruct (files_attached_before_submission Demo.w Demo.code)
    as (_ & _ & Hrestart & _).
  destruct (Hrestart (Ok tt)
              (Restart.example_restart Demo.w Demo.code initial).2)
    as [_ Hall].
  { vm_compute. reflexivity. }
  eapply Forall_impl; [exact Hall |]. by intros s [? _].
Defined.

(** C2, as the spec has it, fails on [example_multistage_h2o_testfile]:
    the data nodes its submission is given are the structure, the
    protocol file and the code, and no basis-set or pseudopotential file. *)
Lemma multistage_attaches_no_basis_or_pseudo :
  map (fun s : submission => attached_nodes s.1.2 s.2)
      (runs (events (Multistage.example_multistage_h2o_testfile
                       Demo.w Demo.code)))
  = [[StructureData (io_read "/aiida-cp2k/examples/scripts/../data/h2o.xyz");
      SinglefileData "/aiida-cp2k/examples/scripts/../data/testfile.yaml";
      Code "cp2k@localhost"]].
Proof. vm_compute. reflexivity. Qed.




(** C7. Every submission is given exactly the inputs that the attribute
    assignments made before it have put on the builder. In the three
    scripts that submit once, the inputs are assigned, the builder is
    submitted, and no assignment follows. In [example_restart] the first
    submission is given [structure], [parameters], [code], [file] and the
    two options; the second, when it is made, is given the same inputs
    and [parent_calc_folder], all assigned before it, and no assignment
    follows it. *)
Theorem inputs_assembled_before_run (w : world) (cp2k_code : pyval) :
  (let t := events (Base.example_base w cp2k_code) in
   assembled [] t /\ filter is_setattr (after_last_run t) = [] /\
   exists b i h,
     runs t = [(b, WorkflowFactory "cp2k.base", i, h)] /\
     i.*1 = [["cp2k"; "structure"]; ["cp2k"; "parameters"]; ["cp2k"; "code"];
             ["cp2k"; "file"];
             ["cp2k"; "metadata"; "options"; "resources"];
             ["cp2k"; "metadata"; "options"; "max_wallclock_seconds"]]) /\
  (let t := events (Multistage.example_multistage_h2o_testfile w cp2k_code) in
   assembled [] t /\ filter is_setattr (after_last_run t) = [] /\
   exists b i h,
     runs t = [(b, WorkflowFactory "cp2k.multistage", i, h)] /\
     i.*1 = [["structure"]; ["protocol_yaml"]; ["cp2k_base"; "cp2k"; "code"];
             ["cp2k_base"; "cp2k"; "metadata"; "options"; "resources"];
             ["cp2k_base"; "cp2k"; "metadata"; "options";
              "max_wallclock_seconds"]]) /\
  (let t := events (StructureThroughFile.example_structure_through_file
                      w cp2k_code) in
   assembled [] t /\ filter is_setattr (after_last_run t) = [] /\
   exists b i h,
     runs t = [(b, CalculationFactory "cp2k", i, h)] /\
     i.*1 = [["parameters"]; ["code"]; ["file"];
             ["metadata"; "options"; "resources"];
             ["metadata"; "options"; "max_wallclock_seconds"]]) /\
  (forall r st,
     Restart.example_restart w cp2k_code initial = (r, st) ->
     assembled [] (trace st) /\
     exists b i1 h1 rest,
       runs (trace st) = (b, CalculationFactory "cp2k", i1, h1) :: rest /\
       i1.*1 = restart_inputs /\
       (rest = [] \/
        exists i2 h2,
          rest = [(b, CalculationFactory "cp2k", i2, h2)] /\
          i2.*1 = restart_inputs ++ [["parent_calc_folder"]] /\
          filter is_setattr (after_last_run (trace st)) = [])).
Proof.
  split; [| split; [| split]].
  - destruct (base_account w cp2k_code)
      as (b & h & l & f & Hruns & _ & _ & _ & _ & _ & Hasm & Hsets).
    cbv zeta. split; [done |]. split; [done |].
    eexists _, _, _. split; [exact Hruns | reflexivity].
  - destruct (multistage_account w cp2k_code)
      as (b & h & l & Hruns & _ & _ & _ & Hasm & Hsets).
    cbv zeta. split; [done |]. split; [done |].
    eexists _, _, _. split; [exact Hruns | reflexivity].
  - destruct (structure_through_file_account w cp2k_code)
      as (b & h & l & f & Hruns & _ & _ & _ & _ & Hasm & Hsets).
    cbv zeta. split; [done |]. split; [done |].
    eexists _, _, _. split; [exact Hruns | reflexivity].
  - intros r st H. restart_stages H.
    all: split; [done |].
    all: exists 18, i1, h1, rest; split; [done |]; split; [done |].
    all: try (left; done).
    right. by exists i2, h2.
Qed.

Lemma inputs_assembled_before_run_demo :
  assembled [] (events (Restart.example_restart Demo.w Demo.code)).
Proof.
  destruct (inputs_assembled_before_run Demo.w Demo.code)
    as (_ & _ & _ & Hrestart).
  apply (Hrestart (Ok tt)
           (Restart.example_restart Demo.w Demo.code initial).2).
  vm_compute. reflexivity.
Defined.

(** ** Copies and shared dictionaries *)

Section assoc_facts.
Context {K V : Type} `{EqDecision K}.
Implicit Types (k : K) (v : V) (l : list (K * V)).

Lemma assoc_get_set_eq k v l : assoc_get k (assoc_set k v l) = Some v.
Proof.
  induction l as [|[k' v'] l IH]; simpl.
  - by rewrite decide_True.
  - destruct (decide (k' = k)) as [->|Hne]; simpl.
    + by rewrite decide_True.
    + by rewrite decide_False.
Qed.

Lemma assoc_get_set_ne k k' v l :
  k <> k' -> assoc_get k (assoc_set k' v l) = assoc_get k l.
Proof.
  intros Hne. induction l as [|[k0 v0] l IH]; simpl.
  - by rewrite decide_False.
  - destruct (decide (k0 = k')) as [->|Hne']; simpl.
    + by rewrite !decide_False.
    + destruct (decide (k0 = k)); [done | apply IH].
Qed.

Lemma assoc_get_del_ne k k' l :
  k <> k' -> assoc_get k (assoc_del k' l) = assoc_get k l.
Proof.
  intros Hne. induction l as [|[k0 v0] l IH]; simpl; [done |].
  destruct (decide (k0 = k')) as [->|Hne']; simpl.
  - by rewrite decide_False.
  - destruct (decide (k0 = k)); [done | apply IH].
Qed.

End assoc_facts.

Lemma apart_cons k p q : apart (k :: p) (k :: q) -> apart p q.
Proof.
  intros [H1 H2]. split; intros Hp; [apply H1 | apply H2];
    by apply prefix_cons.
Qed.

(** An update at [q] is not seen from a path that leads elsewhere. *)
Lemma json_get_update_apart q : forall p f j,
  apart p q -> json_get p (json_update q f j) = json_get p j.
Proof.
  induction q as [|k q IH]; intros p f j Hpq.
  - by destruct j.
  - destruct p as [|k' p].
    { destruct Hpq as [Hpq _]. destruct Hpq. apply prefix_nil. }
    destruct j as [a|l|items]; [by destruct q | by destruct q |].
    destruct (decide (k' = k)) as [->|Hne].
    + destruct q as [|k2 q].
      { destruct Hpq as [_ Hpq]. destruct Hpq.
        apply prefix_cons, prefix_nil. }
      simpl. destruct (assoc_get k items) as [c|] eqn:Hc; [| by rewrite ?Hc].
      cbn [json_get]. rewrite assoc_get_set_eq.
      apply (IH p f c). by apply apart_cons in Hpq.
    + destruct q as [|k2 q].
      * cbn [json_update json_get].
        destruct (f (assoc_get k items)).
        -- by rewrite assoc_get_set_ne.
        -- by rewrite assoc_get_del_ne.
      * cbn [json_update].
        destruct (assoc_get k items) as [c|] eqn:Hc; [| done].
        cbn [json_get]. by rewrite assoc_get_set_ne.
Qed.

Lemma restart_edits_elsewhere p j :
  Forall (apart p) restart_changes ->
  json_get p (restart_edits j) = json_get p j.
Proof.
  intros H. unfold restart_changes in H.
  repeat match goal with
         | H : Forall _ (_ :: _) |- _ => apply Forall_cons in H as [? H]
         end.
  unfold restart_edits, json_set, json_del.
  by rewrite !json_get_update_apart.
Qed.

(** [copy.deepcopy] leaves every object that exists as it is: the heap
    after the copy is the heap before it, followed by new objects. *)
Section deepcopy_frame.
Variable rec : pyval -> list (nat * nat) -> list pyobj -> copied pyval.
Hypothesis rec_frame : forall v memo h v' memo' h',
  rec v memo h = inr (v', memo', h') -> h `prefix_of` h'.

Lemma copy_list_frame vs : forall memo h vs' memo' h',
  copy_list rec vs memo h = inr (vs', memo', h') -> h `prefix_of` h'.
Proof.
  induction vs as [|v vs IH]; intros memo h vs' memo' h' H; simpl in H.
  - by simplify_eq.
  - destruct (rec v memo h) as [|[[v1 memo1] h1]] eqn:Hv; [done |].
    destruct (copy_list rec vs memo1 h1) as [|[[r2 memo2] h2]] eqn:Hr;
      [done |].
    simplify_eq. etrans; [by eapply rec_frame | by eapply IH].
Qed.

Lemma copy_items_frame kvs : forall memo h kvs' memo' h',
  copy_items rec kvs memo h = inr (kvs', memo', h') -> h `prefix_of` h'.
Proof.
  induction kvs as [|[k v] kvs IH]; intros memo h kvs' memo' h' H;
    simpl in H.
  - by simplify_eq.
  - destruct (rec v memo h) as [|[[v1 memo1] h1]] eqn:Hv; [done |].
    destruct (copy_items rec kvs memo1 h1) as [|[[r2 memo2] h2]] eqn:Hr;
      [done |].
    simplify_eq. etrans; [by eapply rec_frame | by eapply IH].
Qed.

End deepcopy_frame.

Lemma prefix_insert_new (h h' : list pyobj) (l : nat) (o : pyobj) :
  h `prefix_of` h' -> length h <= l -> h `prefix_of` <[l := o]> h'.
Proof.
  intros [k ->] Hl. rewrite insert_app_r_alt by done.
  by apply prefix_app_r.
Qed.

Lemma deepcopy_val_frame fuel : forall v memo h v' memo' h',
  deepcopy_val fuel v memo h = inr (v', memo', h') -> h `prefix_of` h'.
Proof.
  induction fuel as [|n IH]; intros v memo h v' memo' h' H; [done |].
  simpl in H. destruct v as [a|nd|l|l]; try done.
  - by simplify_eq.
  - destruct (assoc_get l memo); [by simplify_eq |].
    destruct (h !! l) as [[items|vs|]|]; try done.
    + destruct (copy_items _ items _ _) as [|[[items' memo1] h1]] eqn:Hc;
        [done |].
      simplify_eq. apply copy_items_frame in Hc; [| exact IH].
      apply prefix_insert_new; [| done].
      etrans; [| exact Hc]. by apply prefix_app_r.
    + destruct (copy_list _ vs _ _) as [|[[vs' memo1] h1]] eqn:Hc;
        [done |].
      simplify_eq. apply copy_list_frame in Hc; [| exact IH].
      apply prefix_insert_new; [| done].
      etrans; [| exact Hc]. by apply prefix_app_r.
Qed.

Lemma deepcopy_keeps_heap v st v' st' :
  deepcopy v st = (Ok v', st') ->
  heap st `prefix_of` heap st' /\ trace st' = trace st.
Proof.
  unfold deepcopy, deepcopy_at.
  destruct (deepcopy_val _ v [] (heap st)) as [|[[v1 memo1] h1]] eqn:Hc;
    [done |].
  intros H. simplify_eq. split; [| done].
  by eapply deepcopy_val_frame.
Qed.

(** Without the copy the dictionary of the node itself is edited:
    [get_dict] hands out the dictionary, not a copy of it. *)
Example edit_through_get_dict :
  (d ← literal (JDict [("GLOBAL", JDict [("RUN_TYPE", jstr "GEO_OPT");
                                          ("WALLTIME", jstr "00:00:10")])]);
   n ← Dict d;
   p ← get_dict n;
   (g ← getitem p "GLOBAL"; delitem g "WALLTIME");;
   snapshot d) initial
  = (Ok (Some (JDict [("GLOBAL", JDict [("RUN_TYPE", jstr "GEO_OPT")])])),
     State [ODict [("RUN_TYPE", vstr "GEO_OPT")];
            ODict [("GLOBAL", VRef 0)]] []).
Proof. reflexivity. Qed.

Example edit_through_deepcopy :
  outcome
    (d ← literal (JDict [("GLOBAL", JDict [("RUN_TYPE", jstr "GEO_OPT");
                                            ("WALLTIME", jstr "00:00:10")])]);
     n ← Dict d;
     p ← (q ← get_dict n; deepcopy q);
     (g ← getitem p "GLOBAL"; delitem g "WALLTIME");;
     snapshot d)
  = Ok (Some (JDict [("GLOBAL", JDict [("RUN_TYPE", jstr "GEO_OPT");
                                        ("WALLTIME", jstr "00:00:10")])])).
Proof. reflexivity. Qed.

(** C9. In [example_restart] the second parameter set is built on a deep
    copy, in a dictionary of its own: at the second submission the first
    [Dict] node still holds the parameters it was created with, with
    [GLOBAL/WALLTIME] and [MOTION/GEO_OPT/MAX_FORCE] in them. The second
    node holds those parameters without these two entries and with
    [FORCE_EVAL/DFT/RESTART_FILE_NAME], [FORCE_EVAL/DFT/SCF/SCF_GUESS]
    ['RESTART'] and the [EXT_RESTART] section added; every entry on a
    path that leads to none of the five is the same in both. *)
Theorem second_parameters_are_an_edited_copy (w : world) (cp2k_code : pyval)
  (r : result unit) (st : state) (b1 b2 : nat) (p1 p2 : process)
  (inputs1 inputs2 : list (list string * pyval))
  (heap1 heap2 : list pyobj) :
  Restart.example_restart w cp2k_code initial = (r, st) ->
  runs (trace st) = [(b1, p1, inputs1, heap1); (b2, p2, inputs2, heap2)] ->
  let params1 := Restart.params1_dict in
  let params2 := restart_edits Restart.params1_dict in
  (exists l1 l2,
     l1 <> l2 /\
     assoc_get ["parameters"] inputs1 = Some (VDict l1) /\
     assoc_get ["parameters"] inputs2 = Some (VDict l2) /\
     reify (S (length heap1)) heap1 (VRef l1) = Some params1 /\
     reify (S (length heap2)) heap2 (VRef l1) = Some params1 /\
     reify (S (length heap2)) heap2 (VRef l2) = Some params2) /\
  (json_get ["GLOBAL"; "WALLTIME"] params1 = Some (jstr "00:00:10") /\
   json_get ["MOTION"; "GEO_OPT"; "MAX_FORCE"] params1
   = Some (jfloat 1 (-20))) /\
  (json_get ["GLOBAL"; "WALLTIME"] params2 = None /\
   json_get ["MOTION"; "GEO_OPT"; "MAX_FORCE"] params2 = None) /\
  (json_get ["FORCE_EVAL"; "DFT"; "RESTART_FILE_NAME"] params1 = None /\
   json_get ["FORCE_EVAL"; "DFT"; "SCF"; "SCF_GUESS"] params1 = None /\
   json_get ["EXT_RESTART"] params1 = None) /\
  (json_get ["FORCE_EVAL"; "DFT"; "RESTART_FILE_NAME"] params2
   = Some (jstr "./parent_calc/aiida-RESTART.wfn") /\
   json_get ["FORCE_EVAL"; "DFT"; "SCF"; "SCF_GUESS"] params2
   = Some (jstr "RESTART") /\
   json_get ["EXT_RESTART"] params2
   = Some (JDict [("RESTART_FILE_NAME",
                   jstr "./parent_calc/aiida-1.restart")])) /\
  (forall p, Forall (apart p) restart_changes ->
             json_get p params2 = json_get p params1).
Proof.
  intros H Hruns' params1 params2. subst params1 params2.
  split; [| split; [| split; [| split; [| split]]]];
    [| by repeat split .. | intros p Hp; by apply restart_edits_elsewhere ].
  restart_stages H; rewrite Hruns, Hrest in Hruns'; simplify_eq.
  exists 17, 21. by repeat split.
Qed.

Lemma second_parameters_are_an_edited_copy_demo :
  exists l1 l2 h2,
    l1 <> l2 /\
    reify (S (length h2)) h2 (VRef l1) = Some Restart.params1_dict /\
    reify (S (length h2)) h2 (VRef l2)
    = Some (restart_edits Restart.params1_dict).
Proof.
  let rs := eval vm_compute in
    (runs (events (Restart.example_restart Demo.w Demo.code))) in
  lazymatch rs with
  | [(?b1, ?p1, ?i1, ?h1); (?b2, ?p2, ?i2, ?h2)] =>
      destruct (second_parameters_are_an_edited_copy Demo.w Demo.code (Ok tt)
                  (Restart.example_restart Demo.w Demo.code initial).2
                  b1 b2 p1 p2 i1 i2 h1 h2)
        as ((l1 & l2 & Hne & _ & _ & _ & Hr1 & Hr2) & _);
      [ vm_compute; reflexivity | vm_compute; reflexivity
      | by exists l1, l2, h2 ]
  end.
Defined.

(** ** More on the command-line entry points *)

Lemma cli_other_error w codelabel e (example : pyval -> script unit) :
  get_from_string w codelabel = inl e -> e <> NotExistent ->
  (code ← try_except
     (lift (get_from_string w codelabel))
     (fun e =>
        match e with
        | NotExistent =>
            Some (s ← lift (str_format w "The code '{}' does not exist"
                                       [PyStr codelabel]);
                  print s;;
                  sys_exit 1)
        | _ => None
        end);
   example (VNode code)) initial
  = (Raise e, initial).
Proof.
  intros E Hne. rewrite bind_unfold. unfold try_except. rewrite E.
  cbn [lift raise]. by destruct e.
Qed.

(** [cli] handles [NotExistent] only. Any other exception of
    [Code.get_from_string] leaves each of the four [cli] functions as it
    was raised: nothing is printed, no builder is made, nothing is
    submitted, and the exit status 1 is not used. *)
Theorem cli_lets_other_errors_through (w : world) (codelabel : string)
  (e : exn) :
  get_from_string w codelabel = inl e -> e <> NotExistent ->
  Restart.cli w codelabel initial = (Raise e, initial) /\
  StructureThroughFile.cli w codelabel initial = (Raise e, initial) /\
  Base.cli w codelabel initial = (Raise e, initial) /\
  Multistage.cli w codelabel initial = (Raise e, initial).
Proof. intros E Hne. repeat split; by apply cli_other_error. Qed.

Lemma cli_lets_other_errors_through_demo :
  Base.cli (session (fun _ => inl ValueError) (inr Demo.calc1) (inr Demo.calc2))
           "cp2k@localhost" initial
  = (Raise ValueError, initial).
Proof.
  by apply (cli_lets_other_errors_through
              (session (fun _ => inl ValueError) (inr Demo.calc1)
                       (inr Demo.calc2))
              "cp2k@localhost" ValueError).
Defined.

(** The code a script submits is the node [Code.get_from_string] returned
    for the label given on the command line: every submission made
    through [cli] has it as its [code] input, at the place the process
    class expects it. *)
Theorem cli_submits_the_resolved_code (w : world) (codelabel : string)
  (c : node) :
  get_from_string w codelabel = inr c ->
  (exists b i h,
     runs (events (Base.cli w codelabel))
     = [(b, WorkflowFactory "cp2k.base", i, h)] /\
     assoc_get ["cp2k"; "code"] i = Some (VNode c)) /\
  (exists b i h,
     runs (events (Multistage.cli w codelabel))
     = [(b, WorkflowFactory "cp2k.multistage", i, h)] /\
     assoc_get ["cp2k_base"; "cp2k"; "code"] i = Some (VNode c)) /\
  (exists b i h,
     runs (events (StructureThroughFile.cli w codelabel))
     = [(b, CalculationFactory "cp2k", i, h)] /\
     assoc_get ["code"] i = Some (VNode c)) /\
  (forall r st,
     Restart.cli w codelabel initial = (r, st) ->
     runs (trace st) <> [] /\
     Forall (fun s : submission => assoc_get ["code"] s.1.2 = Some (VNode c))
            (runs (trace st))).
Proof.
  intros E. split; [| split; [| split]].
  - unfold events, Base.cli. rewrite (cli_known_code _ _ _ _ E).
    destruct (base_account w (VNode c)) as (b & h & l & f & Hruns & _).
    eexists _, _, _. split; [exact Hruns | reflexivity].
  - unfold events, Multistage.cli. rewrite (cli_known_code _ _ _ _ E).
    destruct (multistage_account w (VNode c)) as (b & h & l & Hruns & _).
    eexists _, _, _. split; [exact Hruns | reflexivity].
  - unfold events, StructureThroughFile.cli.
    rewrite (cli_known_code _ _ _ _ E).
    destruct (structure_through_file_account w (VNode c))
      as (b & h & l & f & Hruns & _).
    eexists _, _, _. split; [exact Hruns | reflexivity].
  - intros r st. unfold Restart.cli. rewrite (cli_known_code _ _ _ _ E).
    intros H. restart_stages H; rewrite Hruns, Hrest.
    all: split; [done |].
    all: repeat (apply Forall_cons_2; [done |]); apply Forall_nil_2.
Qed.

Lemma cli_submits_the_resolved_code_demo :
  Forall (fun s : submission =>
            assoc_get ["code"] s.1.2 = Some (VNode (Code "cp2k@localhost")))
         (runs (events (Restart.cli Demo.w "cp2k@localhost"))) /\
  length (runs (events (Restart.cli Demo.w "cp2k@localhost"))) = 2.
Proof.
  split; [| vm_compute; reflexivity].
  destruct (cli_submits_the_resolved_code Demo.w "cp2k@localhost"
              (Code "cp2k@localhost") eq_refl) as (_ & _ & _ & Hrestart).
  apply (Hrestart (Ok tt)
           (Restart.cli Demo.w "cp2k@localhost" initial).2).
  vm_compute. reflexivity.
Defined.

(** ** [example_restart]: what is kept, what is changed, where it stops *)

Ltac compute_observations :=
  repeat match goal with
    | |- context [skeleton ?t] =>
        let v := eval vm_compute in (skeleton t) in
        change (skeleton t) with v
    | |- context [prints ?t] =>
        let v := eval vm_compute in (prints t) in
        change (prints t) with v
    | |- context [printed ?s ?t] =>
        let v := eval vm_compute in (printed s t) in
        change (printed s t) with v
    | |- context [count_runs ?t] =>
        let v := eval vm_compute in (count_runs t) in
        change (count_runs t) with v
    | |- context [runs ?t] =>
        let v := eval vm_compute in (runs t) in
        change (runs t) with v
    end.

(** A premise about an answer of the world meets what is known of it. *)
Ltac meet Hx :=
  repeat match goal with
    | H' : ?x = _ |- _ =>
        lazymatch x with
        | ?f _ =>
            tryif constr_eq H' Hx then fail else
            lazymatch type of Hx with
            | context [x] =>
                rewrite H' in Hx; cbn [andb] in Hx; cbv beta iota in Hx
            end
        end
    end.

Lemma restart_second_account w cp2k_code r st :
  Restart.example_restart w cp2k_code initial = (r, st) ->
  let P := CalculationFactory "cp2k" in
  let t := trace st in
  let s := skeleton t in
  (s = take (length s) restart_operations \/
   s = take (length s - 1) restart_operations ++ [Assert false] /\
   r = Raise AssertionError) /\
  (r = Ok tt <-> s = restart_operations) /\
  take 2 (prints t) = ["Testing CP2K restart..."; "submitted calculation 1:"] /\
  printed "submitted calculation 2" t = bool_decide (count_runs t = 2) /\
  Forall (fun s : submission =>
            input_data s.1.2 s.2 ["metadata"; "options"; "resources"]
            = Some one_process /\
            input_data s.1.2 s.2 ["metadata"; "options"; "max_wallclock_seconds"]
            = Some (jint 120))
         (runs t) /\
  match runs t with
  | [(b1, p1, i1, h1)] => True
  | [(b1, p1, i1, h1); (b2, p2, i2, h2)] =>
      b2 = b1 /\
      h1 !! b1 = Some (OBuilder P i1) /\
      h2 !! b1 = Some (OBuilder P i2) /\
      take (length h1) (<[b1 := OBuilder P i1]> h2) = h1 /\
      exists calc1 rf l2,
        engine w 0 P i1 h1 = inr calc1 /\
        calc1 !! "remote_folder" = Some rf /\
        i2 = assoc_set ["parent_calc_folder"] (VNode rf)
               (assoc_set ["parameters"] (VDict l2)
                  (assoc_set ["structure"]
                     (VNode (StructureData (scale_positions (Dec 0 0) h2o)))
                     i1))
  | _ => False
  end.
Proof.
  intros H P t s. subst P t s.
  destruct w as [sd ap fs adl fei gfs eng].
  unfold Restart.example_restart in H.
  exec H.
  all: cbn [trace engine]; compute_observations; cbv beta iota.
  all: split;
    [ first [ left; vm_compute; reflexivity
            | right; split; [vm_compute; reflexivity | reflexivity] ] | ].
  all: split;
    [ split; intros Hx;
      first [ reflexivity | discriminate Hx
            | vm_compute in Hx; discriminate Hx ] | ].
  all: split; [reflexivity |].
  all: split; [vm_compute; reflexivity |].
  all: split;
    [ repeat (apply Forall_cons_2; [split; vm_compute; reflexivity |]);
      apply Forall_nil_2 | ].
  all: try exact I.
  all: split; [reflexivity |].
  all: split; [reflexivity |].
  all: split; [reflexivity |].
  all: split; [vm_compute; reflexivity |].
  all: eexists _, _, _; split; [eassumption |]; split; [eassumption |].
  all: reflexivity.
Qed.

Lemma restart_missing_account w cp2k_code r st :
  Restart.example_restart w cp2k_code initial = (r, st) ->
  let t := trace st in
  forall b p i1 h1 calc1,
    head (runs t) = Some (b, p, i1, h1) ->
    engine w 0 p i1 h1 = inr calc1 ->
    (calc1 !! "output_parameters" = None ->
     r = Raise (KeyError "output_parameters") /\
     skeleton t = take 8 restart_operations) /\
    (first_checks calc1 = true -> calc1 !! "remote_folder" = None ->
     r = Raise (KeyError "remote_folder") /\
     skeleton t = take 13 restart_operations /\
     count_runs t = 1).
Proof.
  intros H t. subst t.
  destruct w as [sd ap fs adl fei gfs eng].
  unfold Restart.example_restart in H.
  exec H.
  all: cbn [trace engine]; compute_observations.
  all: intros b' p' i' h' calc' Hh He.
  all: injection Hh as <- <- <- <-.
  all: meet He; first [discriminate He | injection He as <-].
  all: split.
  all: intros Hx; try intros Hy.
  all: try unfold first_checks in Hx; meet Hx;
    first [ discriminate Hx
          | meet Hy; discriminate Hy
          | repeat split; first [reflexivity | vm_compute; reflexivity] ].
Qed.

Lemma prefix_of_take {A} (l1 l2 : list A) :
  l1 = take (length l1) l2 -> l1 `prefix_of` l2.
Proof. intros ->. apply prefix_take. Qed.

(** [example_restart] goes through its operations in one fixed order and
    stops at the first one that fails. The operations it has made are
    always an initial part of the full sequence (builder, six inputs,
    submission, three assertions, three inputs, submission, two
    assertions), possibly followed by one assertion that did not hold,
    in which case the script ends with [AssertionError]. It returns
    normally exactly when it has made the full sequence. *)
Theorem restart_stops_at_the_first_failure (w : world) (cp2k_code : pyval)
  (r : result unit) (st : state) :
  Restart.example_restart w cp2k_code initial = (r, st) ->
  (r = Ok tt <-> skeleton (trace st) = restart_operations) /\
  (skeleton (trace st) `prefix_of` restart_operations \/
   exists ops,
     skeleton (trace st) = ops ++ [Assert false] /\
     ops `prefix_of` restart_operations /\
     r = Raise AssertionError).
Proof.
  intros H.
  destruct (restart_second_account _ _ _ _ H) as (Hseg & Hok & _).
  clear H. split; [exact Hok |].
  destruct Hseg as [Hseg | [Hseg Hr]].
  - left. by apply prefix_of_take.
  - right. eexists. split; [exact Hseg |]. split; [apply prefix_take | done].
Qed.

Lemma restart_stops_at_the_first_failure_demo :
  skeleton (events (Restart.example_restart
                      (session (get_from_string Demo.w)
                               (inr finished_in_time) (inr Demo.calc2))
                      Demo.code))
  = take 8 restart_operations ++ [Assert false].
Proof.
  destruct (restart_stops_at_the_first_failure
              (session (get_from_string Demo.w) (inr finished_in_time)
                       (inr Demo.calc2))
              Demo.code (Raise AssertionError)
              (Restart.example_restart
                 (session (get_from_string Demo.w) (inr finished_in_time)
                          (inr Demo.calc2))
                 Demo.code initial).2) as [_ Hseg].
  { vm_compute. reflexivity. }
  vm_compute. reflexivity.
Defined.

(** In [example_restart] both submissions go through one builder, which
    is changed in place. At the second submission every input other than
    [structure], [parameters] and [parent_calc_folder] is the value the
    first submission was given; the structure is the H2O molecule with
    its positions multiplied by zero; and every object that existed at
    the first submission, the builder apart, is as it was then. *)
Theorem second_submission_reuses_the_builder (w : world) (cp2k_code : pyval)
  (r : result unit) (st : state) (b1 b2 : nat) (p1 p2 : process)
  (inputs1 inputs2 : list (list string * pyval))
  (heap1 heap2 : list pyobj) :
  Restart.example_restart w cp2k_code initial = (r, st) ->
  runs (trace st) = [(b1, p1, inputs1, heap1); (b2, p2, inputs2, heap2)] ->
  b2 = b1 /\
  heap1 !! b1 = Some (OBuilder (CalculationFactory "cp2k") inputs1) /\
  heap2 !! b1 = Some (OBuilder (CalculationFactory "cp2k") inputs2) /\
  (forall path,
     path <> ["structure"] -> path <> ["parameters"] ->
     path <> ["parent_calc_folder"] ->
     assoc_get path inputs2 = assoc_get path inputs1) /\
  assoc_get ["structure"] inputs2
  = Some (VNode (StructureData (scale_positions (Dec 0 0) h2o))) /\
  (forall l o, l <> b1 -> heap1 !! l = Some o -> heap2 !! l = Some o).
Proof.
  intros H Hruns.
  destruct (restart_second_account _ _ _ _ H) as (_ & _ & _ & _ & _ & Hpair).
  clear H. cbv zeta in Hpair. rewrite Hruns in Hpair.
  destruct Hpair as (-> & Hb1 & Hb2 & Hframe & calc1 & rf & l2 & _ & _ & ->).
  split; [done |]. split; [done |]. split; [done |]. split; [| split].
  - intros path H1 H2 H3. by rewrite !assoc_get_set_ne.
  - rewrite assoc_get_set_ne by done. rewrite assoc_get_set_ne by done.
    apply assoc_get_set_eq.
  - intros l o Hl Ho.
    pose proof (lookup_lt_Some _ _ _ Ho) as Hlt.
    rewrite <- Hframe in Ho.
    rewrite lookup_take_lt in Ho by done.
    by rewrite list_lookup_insert_ne in Ho.
Qed.

Lemma second_submission_reuses_the_builder_demo :
  exists i1 i2 : list (list string * pyval),
    map (fun s : submission => s.1.2)
        (runs (events (Restart.example_restart Demo.w Demo.code)))
    = [i1; i2] /\
    assoc_get ["file"] i2 = assoc_get ["file"] i1.
Proof.
  let rs := eval vm_compute in
    (runs (events (Restart.example_restart Demo.w Demo.code))) in
  lazymatch rs with
  | [(?b1, ?p1, ?i1, ?h1); (?b2, ?p2, ?i2, ?h2)] =>
      destruct (second_submission_reuses_the_builder Demo.w Demo.code (Ok tt)
                  (Restart.example_restart Demo.w Demo.code initial).2
                  b1 b2 p1 p2 i1 i2 h1 h2)
        as (_ & _ & _ & Hsame & _);
      [ vm_compute; reflexivity | vm_compute; reflexivity
      | exists i1, i2; split; [vm_compute; reflexivity | by apply Hsame] ]
  end.
Defined.

(** Every submission of every script asks for one machine with one MPI
    process. The wallclock limit is 120 seconds for both submissions of
    [example_restart] and 180 seconds in the three other scripts. *)
Theorem requested_resources (w : world) (cp2k_code : pyval) :
  (exists b p i h,
     runs (events (Base.example_base w cp2k_code)) = [(b, p, i, h)] /\
     input_data i h ["cp2k"; "metadata"; "options"; "resources"]
     = Some one_process /\
     input_data i h ["cp2k"; "metadata"; "options"; "max_wallclock_seconds"]
     = Some (jint 180)) /\
  (exists b p i h,
     runs (events (Multistage.example_multistage_h2o_testfile w cp2k_code))
     = [(b, p, i, h)] /\
     input_data i h ["cp2k_base"; "cp2k"; "metadata"; "options"; "resources"]
     = Some one_process /\
     input_data i h ["cp2k_base"; "cp2k"; "metadata"; "options";
                     "max_wallclock_seconds"]
     = Some (jint 180)) /\
  (exists b p i h,
     runs (events (StructureThroughFile.example_structure_through_file
                     w cp2k_code)) = [(b, p, i, h)] /\
     input_data i h ["metadata"; "options"; "resources"] = Some one_process /\
     input_data i h ["metadata"; "options"; "max_wallclock_seconds"]
     = Some (jint 180)) /\
  (forall r st,
     Restart.example_restart w cp2k_code initial = (r, st) ->
     Forall (fun s : submission =>
               input_data s.1.2 s.2 ["metadata"; "options"; "resources"]
               = Some one_process /\
               input_data s.1.2 s.2
                          ["metadata"; "options"; "max_wallclock_seconds"]
               = Some (jint 120))
            (runs (trace st))).
Proof.
  split; [| split; [| split]].
  - destruct (base_account w cp2k_code)
      as (b & h & l & f & Hruns & _ & _ & Hres & _).
    eexists _, _, _, _. split; [exact Hruns |]. split; [exact Hres | done].
  - destruct (multistage_account w cp2k_code)
      as (b & h & l & Hruns & Hres & _).
    eexists _, _, _, _. split; [exact Hruns |]. split; [exact Hres | done].
  - destruct (structure_through_file_account w cp2k_code)
      as (b & h & l & f & Hruns & _ & Hres & _).
    eexists _, _, _, _. split; [exact Hruns |]. split; [exact Hres | done].
  - intros r st H.
    by destruct (restart_second_account _ _ _ _ H) as (_ & _ & _ & _ & ? & _).
Qed.

(** Outputs that [example_restart] reads without checking for them: when
    the first calculation returns no ['output_parameters'], the script
    ends with [KeyError] right after the submission, before any
    assertion. When the first calculation passes the three assertions
    but has no ['remote_folder'], the script ends with [KeyError] after
    it has already given the builder the second structure and the second
    parameters; nothing is submitted a second time. *)
Theorem missing_outputs_raise_KeyError (w : world) (cp2k_code : pyval)
  (r : result unit) (st : state) (b : nat) (p : process)
  (inputs1 : list (list string * pyval)) (heap1 : list pyobj)
  (calc1 : gmap string node) :
  Restart.example_restart w cp2k_code initial = (r, st) ->
  head (runs (trace st)) = Some (b, p, inputs1, heap1) ->
  engine w 0 p inputs1 heap1 = inr calc1 ->
  (calc1 !! "output_parameters" = None ->
   r = Raise (KeyError "output_parameters") /\
   skeleton (trace st)
   = [GetBuilder (CalculationFactory "cp2k")] ++
     map SetAttr restart_inputs ++ [Submit]) /\
  (first_run_checks calc1 -> calc1 !! "remote_folder" = None ->
   r = Raise (KeyError "remote_folder") /\
   skeleton (trace st)
   = [GetBuilder (CalculationFactory "cp2k")] ++
     map SetAttr restart_inputs ++
     [Submit; Assert true; Assert true; Assert true;
      SetAttr ["structure"]; SetAttr ["parameters"]] /\
   count_runs (trace st) = 1).
Proof.
  intros H Hhead Hengine.
  destruct (restart_missing_account _ _ _ _ H _ _ _ _ _ Hhead Hengine)
    as [Hpar Hrf].
  clear H. split.
  - intros Hnone. by destruct (Hpar Hnone) as [-> ->].
  - intros Hc Hnone. apply first_checks_spec in Hc.
    destruct (Hrf Hc Hnone) as (-> & Hsk & Hone).
    split; [done |]. split; [by rewrite Hsk | done].
Qed.

Lemma missing_outputs_raise_KeyError_demo :
  outcome (Restart.example_restart
             (session (get_from_string Demo.w) (inr ∅) (inr Demo.calc2))
             Demo.code)
  = Raise (KeyError "output_parameters") /\
  outcome (Restart.example_restart
             (session (get_from_string Demo.w) (inr without_remote_folder)
                      (inr Demo.calc2))
             Demo.code)
  = Raise (KeyError "remote_folder").
Proof.
  split.
  - let rs := eval vm_compute in
      (runs (events (Restart.example_restart
                       (session (get_from_string Demo.w) (inr ∅)
                                (inr Demo.calc2)) Demo.code))) in
    lazymatch rs with
    | [(?b, ?p, ?i, ?h)] =>
        destruct (missing_outputs_raise_KeyError
                    (session (get_from_string Demo.w) (inr ∅) (inr Demo.calc2))
                    Demo.code _ _ b p i h ∅ (surjective_pairing _))
          as [[Hr _] _];
        [ vm_compute; reflexivity | reflexivity | reflexivity | exact Hr ]
    end.
  - let rs := eval vm_compute in
      (runs (events (Restart.example_restart
                       (session (get_from_string Demo.w)
                                (inr without_remote_folder)
                                (inr Demo.calc2)) Demo.code))) in
    lazymatch rs with
    | [(?b, ?p, ?i, ?h)] =>
        destruct (missing_outputs_raise_KeyError
                    (session (get_from_string Demo.w)
                             (inr without_remote_folder) (inr Demo.calc2))
                    Demo.code _ _ b p i h without_remote_folder
                    (surjective_pairing _))
          as [_ [Hr _]];
        [ vm_compute; reflexivity | reflexivity
        | apply first_checks_spec; vm_compute; reflexivity
        | reflexivity | exact Hr ]
    end.
Defined.

Lemma requested_resources_demo :
  Forall (fun s : submission =>
            input_data s.1.2 s.2
                       ["metadata"; "options"; "max_wallclock_seconds"]
            = Some (jint 120))
         (runs (events (Restart.example_restart Demo.w Demo.code))) /\
  length (runs (events (Restart.example_restart Demo.w Demo.code))) = 2.
Proof.
  split; [| vm_compute; reflexivity].
  destruct (requested_resources Demo.w Demo.code) as (_ & _ & _ & Hrestart).
  eapply Forall_impl; [apply (Hrestart _ _ (surjective_pairing _)) |].
  by intros s [_ ?].
Defined.

(** ** What the scripts print *)

Ltac settle_prints :=
  cbn [trace]; split; [vm_compute; reflexivity |];
  eexists _, _, _, _; vm_compute; reflexivity.

(** The three scripts that submit once print their lines before they
    submit, and the submission is the last thing they do: whatever the
    engine answers, also when it raises, "Submitted calculation..." has
    been printed by [example_base] and by
    [example_structure_through_file], and nothing follows the call of
    [run]. [example_restart] prints "submitted calculation 2" exactly
    when it submits a second time. *)
Theorem progress_messages (w : world) (cp2k_code : pyval) :
  (prints (events (Base.example_base w cp2k_code))
   = ["Testing CP2K ENERGY on H2O (DFT) through a workchain...";
      "Submitted calculation..."] /\
   exists b p i h,
     last (events (Base.example_base w cp2k_code)) = Some (ERun b p i h)) /\
  (prints (events (Multistage.example_multistage_h2o_testfile w cp2k_code))
   = ["Testing CP2K multistage workchain on H2O";
      ">>> Loading a custom protocol from file testfile.yaml"] /\
   exists b p i h,
     last (events (Multistage.example_multistage_h2o_testfile w cp2k_code))
     = Some (ERun b p i h)) /\
  (prints (events (StructureThroughFile.example_structure_through_file
                     w cp2k_code))
   = ["Testing CP2K ENERGY on H2O (DFT). " +:+
      "Water molecule is provided through a file input...";
      "Submitted calculation..."] /\
   exists b p i h,
     last (events (StructureThroughFile.example_structure_through_file
                     w cp2k_code)) = Some (ERun b p i h)) /\
  (forall r st,
     Restart.example_restart w cp2k_code initial = (r, st) ->
     take 2 (prints (trace st))
     = ["Testing CP2K restart..."; "submitted calculation 1:"] /\
     (printed "submitted calculation 2" (trace st) = true
      <-> count_runs (trace st) = 2)).
Proof.
  split; [| split; [| split]].
  - start_script H. exec H; settle_prints.
  - start_script H. exec H; settle_prints.
  - start_script H.
    cbv zeta in H. rewrite format_cell_diagonal in H.
    match type of H with
    | context [lift (inr ?s)] => remember s as abc
    end.
    exec H; settle_prints.
  - intros r st H.
    destruct (restart_second_account _ _ _ _ H) as (_ & _ & Hp & Hs & _).
    clear H. split; [exact Hp |]. rewrite Hs. apply bool_decide_eq_true.
Qed.

Lemma progress_messages_demo :
  printed "submitted calculation 2"
          (events (Restart.example_restart Demo.w Demo.code)) = true.
Proof.
  destruct (progress_messages Demo.w Demo.code) as (_ & _ & _ & Hrestart).
  apply (Hrestart _ _ (surjective_pairing _)).
  vm_compute. reflexivity.
Defined.
(** ** Where the files are looked for *)

Lemma ends_with_sep_app (a b : string) :
  b <> "" -> ends_with_sep (a +:+ b) = ends_with_sep b.
Proof.
  intros Hb. induction a as [|c a IH]; [done |].
  rewrite append_cons. simpl.
  destruct (a +:+ b) eqn:E; [| exact IH].
  by apply append_eq_empty in E as [_ ?].
Qed.

Lemma join_relative (path b : string) :
  starts_with_sep b = false ->
  os_path_join path [b] = as_directory path +:+ b.
Proof.
  intros Hb. unfold os_path_join, as_directory. simpl. rewrite Hb.
  destruct (bool_decide (path = "") || ends_with_sep path); [done |].
  by rewrite append_assoc.
Qed.

Lemma as_directory_open (path b : string) :
  b <> "" -> ends_with_sep b = false ->
  as_directory (path +:+ b) = path +:+ b +:+ "/".
Proof.
  intros Hb He. unfold as_directory.
  rewrite ends_with_sep_app, He by done.
  rewrite bool_decide_eq_false_2; [by rewrite append_assoc |].
  intros E. by apply append_eq_empty in E as [_ ?].
Qed.

(** [os.path.join(d, "..", sub, name)] for a relative [name]. *)
Lemma join_sibling (d sub name : string) :
  sub <> "" -> starts_with_sep sub = false -> ends_with_sep sub = false ->
  starts_with_sep name = false ->
  os_path_join d [".."; sub; name]
  = as_directory d +:+ "../" +:+ sub +:+ "/" +:+ name.
Proof.
  intros Hs1 Hs2 Hs3 Hn.
  change (os_path_join d [".."; sub; name])
    with (os_path_join (os_path_join (os_path_join d [".."]) [sub]) [name]).
  rewrite (join_relative d "..") by done.
  rewrite (join_relative _ sub) by done.
  rewrite (join_relative _ name) by done.
  rewrite (as_directory_open _ "..") by done.
  rewrite (as_directory_open _ sub) by done.
  by rewrite !append_assoc.
Qed.

Lemma basis_and_pseudo_paths w :
  basis_and_pseudo w
  = [("basis",
      VNode (SinglefileData
               (as_directory (script_dir w) +:+ "../files/" +:+ "BASIS_MOLOPT")));
     ("pseudo",
      VNode (SinglefileData
               (as_directory (script_dir w) +:+ "../files/" +:+
                "GTH_POTENTIALS")))].
Proof. unfold basis_and_pseudo. by rewrite !join_sibling. Qed.

Lemma structure_through_file_parameters w cp2k_code :
  let t :=
    events (StructureThroughFile.example_structure_through_file w cp2k_code) in
  exists b i h abc,
    runs t = [(b, CalculationFactory "cp2k", i, h)] /\
    input_json i h ["parameters"]
    = Some (StructureThroughFile.parameters_dict abc) /\
    input_dict i h ["file"]
    = Some (basis_and_pseudo w ++ [("water", VNode (StructureData h2o))]).
Proof.
  intros t. subst t. start_script H.
  cbv zeta in H. rewrite format_cell_diagonal in H.
  match type of H with
  | context [lift (inr ?s)] => remember s as abc
  end.
  exec H; settle_once.
Qed.

(** The parameters of a submission name the files that come with it. In
    every submission of [example_base], [example_structure_through_file]
    and [example_restart], [BASIS_SET_FILE_NAME] and
    [POTENTIAL_FILE_NAME] of the [DFT] section are the names of the two
    files attached as ['basis'] and ['pseudo'], and these files are
    looked for in the directory [files] next to the directory of the
    script, wherever the script is started from. *)
Theorem parameters_name_the_attached_files (w : world) (cp2k_code : pyval) :
  (exists s,
     runs (events (Base.example_base w cp2k_code)) = [s] /\
     names_its_files w ["cp2k"] s) /\
  (exists s,
     runs (events (StructureThroughFile.example_structure_through_file
                     w cp2k_code)) = [s] /\
     names_its_files w [] s) /\
  (forall r st,
     Restart.example_restart w cp2k_code initial = (r, st) ->
     runs (trace st) <> [] /\
     Forall (names_its_files w []) (runs (trace st))).
Proof.
  split; [| split].
  - destruct (base_account w cp2k_code)
      as (b & h & l & f & Hruns & Hpar & Hf & _).
    eexists. split; [exact Hruns |].
    exists Base.parameters_dict, "BASIS_MOLOPT", "GTH_POTENTIALS", [].
    split; [exact Hpar |]. split; [done |]. split; [done |].
    unfold input_dict. simpl. rewrite Hf. by rewrite basis_and_pseudo_paths.
  - destruct (structure_through_file_parameters w cp2k_code)
      as (b & i & h & abc & Hruns & Hpar & Hf).
    eexists. split; [exact Hruns |].
    exists (StructureThroughFile.parameters_dict abc),
      "BASIS_MOLOPT", "GTH_POTENTIALS", [("water", VNode (StructureData h2o))].
    split; [exact Hpar |]. split; [done |]. split; [done |].
    cbn [app fst snd]. rewrite Hf. by rewrite basis_and_pseudo_paths.
  - intros r st H.
    assert (Hfirst : forall b p i h,
              assoc_get ["parameters"] i = Some (VDict 17) ->
              reify (S (length h)) h (VRef 17) = Some Restart.params1_dict ->
              input_dict i h ["file"] = Some (basis_and_pseudo w) ->
              names_its_files w [] (b, p, i, h)).
    { intros b p i h Hp Hr Hf.
      exists Restart.params1_dict, "BASIS_MOLOPT", "GTH_POTENTIALS", [].
      cbn [app fst snd]. unfold input_json. rewrite Hp.
      split; [exact Hr |]. split; [done |]. split; [done |].
      rewrite Hf. by rewrite basis_and_pseudo_paths. }
    restart_stages H; rewrite Hruns, Hrest.
    all: split; [done |].
    all: apply Forall_cons_2; [by apply Hfirst |].
    all: try apply Forall_nil_2.
    apply Forall_cons_2; [| apply Forall_nil_2].
    exists (restart_edits Restart.params1_dict),
      "BASIS_MOLOPT", "GTH_POTENTIALS", [].
    cbn [app fst snd]. unfold input_json. rewrite Hpar2.
    split; [exact Hreify2 |]. split; [done |]. split; [done |].
    rewrite Hfile2. by rewrite basis_and_pseudo_paths.
Qed.

Lemma parameters_name_the_attached_files_demo :
  Forall (names_its_files Demo.w [])
         (runs (events (Restart.example_restart Demo.w Demo.code))) /\
  length (runs (events (Restart.example_restart Demo.w Demo.code))) = 2.
Proof.
  split; [| vm_compute; reflexivity].
  destruct (parameters_name_the_attached_files Demo.w Demo.code)
    as (_ & _ & Hrestart).
  apply (Hrestart _ _ (surjective_pairing _)).
Defined.

(** [example_multistage_h2o_testfile] takes its two files from the
    directory [data] next to the directory of the script: the structure
    is read from [h2o.xyz] there, under the path as it was joined, and the
    protocol is [testfile.yaml] there, under the absolute form of its
    path. *)
Theorem multistage_reads_from_the_data_directory (w : world)
  (cp2k_code : pyval) :
  exists b p i h,
    runs (events (Multistage.example_multistage_h2o_testfile w cp2k_code))
    = [(b, p, i, h)] /\
    assoc_get ["structure"] i
    = Some (VNode (StructureData
                     (io_read (as_directory (script_dir w) +:+
                               "../data/" +:+ "h2o.xyz")))) /\
    assoc_get ["protocol_yaml"] i
    = Some (VNode (SinglefileData
                     (abspath w (as_directory (script_dir w) +:+
                                 "../data/" +:+ "testfile.yaml")))).
Proof.
  destruct (multistage_account w cp2k_code) as (b & h & l & Hruns & _).
  eexists _, _, _, _. split; [exact Hruns |].
  cbn [assoc_get]. rewrite !join_sibling by done. split; reflexivity.
Qed.

(** ** [copy.deepcopy] makes an independent copy *)

Lemma reify_ref k h l j :
  reify (S k) h (VRef l) = Some j ->
  (exists items js,
     h !! l = Some (ODict items) /\ j = JDict js /\
     Forall2 (fun kv kj => kj.1 = kv.1 /\ reify k h kv.2 = Some kj.2) items js) \/
  (exists vs js,
     h !! l = Some (OList vs) /\ j = JList js /\
     Forall2 (fun v j' => reify k h v = Some j') vs js).
Proof.
  simpl. destruct (h !! l) as [[items|vs|]|]; try done.
  - intros H. apply fmap_Some in H as (js & Hm & ->).
    left. exists items, js. split; [done |]. split; [done |].
    apply mapM_Some in Hm. eapply Forall2_impl; [exact Hm |].
    intros kv kj Hkv. simpl in Hkv.
    apply fmap_Some in Hkv as (j' & Hj & ->). done.
  - intros H. apply fmap_Some in H as (js & Hm & ->).
    right. exists vs, js. split; [done |]. split; [done |].
    by apply mapM_Some in Hm.
Qed.

Lemma reify_dict_intro k h l items js :
  h !! l = Some (ODict items) ->
  Forall2 (fun kv kj => kj.1 = kv.1 /\ reify k h kv.2 = Some kj.2) items js ->
  reify (S k) h (VRef l) = Some (JDict js).
Proof.
  intros Hl Hf. simpl. rewrite Hl.
  apply fmap_Some. exists js. split; [| done].
  apply mapM_Some. eapply Forall2_impl; [exact Hf |].
  intros kv [k1 j1] [Hk Hj]. simpl in *. subst. by rewrite Hj.
Qed.

Lemma reify_list_intro k h l vs js :
  h !! l = Some (OList vs) ->
  Forall2 (fun v j' => reify k h v = Some j') vs js ->
  reify (S k) h (VRef l) = Some (JList js).
Proof.
  intros Hl Hf. simpl. rewrite Hl.
  apply fmap_Some. exists js. split; [| done]. by apply mapM_Some.
Qed.

(** No object that can be read holds itself. *)
Lemma above_irrefl h0 l k :
  is_Some (reify k h0 (VRef l)) -> ~ above h0 l (VRef l).
Proof.
  induction k as [k IH] using lt_wf_ind.
  intros Hk Ha. destruct (Ha k Hk) as (k' & Hlt & Hk').
  by apply (IH k' Hlt Hk').
Qed.

Lemma above_member_dict h0 l items kv :
  h0 !! l = Some (ODict items) -> kv ∈ items -> above h0 l kv.2.
Proof.
  intros Hl Hin k [j Hj]. destruct k as [|k]; [done |].
  apply reify_ref in Hj as [(items' & js & Hl' & -> & Hf)|(vs & js & Hl' & _)];
    [| congruence].
  assert (items' = items) as -> by congruence.
  exists k. split; [lia |].
  apply list_elem_of_lookup in Hin as [i Hi].
  destruct (Forall2_lookup_l _ _ _ _ _ Hf Hi) as (kj & _ & _ & Hr).
  by eexists.
Qed.

Lemma above_member_list h0 l vs v :
  h0 !! l = Some (OList vs) -> v ∈ vs -> above h0 l v.
Proof.
  intros Hl Hin k [j Hj]. destruct k as [|k]; [done |].
  apply reify_ref in Hj as [(items' & js & Hl' & _)|(vs' & js & Hl' & -> & Hf)];
    [congruence |].
  assert (vs' = vs) as -> by congruence.
  exists k. split; [lia |].
  apply list_elem_of_lookup in Hin as [i Hi].
  destruct (Forall2_lookup_l _ _ _ _ _ Hf Hi) as (j' & _ & Hr).
  by eexists.
Qed.

Lemma above_trans h0 l1 l v :
  above h0 l1 (VRef l) -> above h0 l v -> above h0 l1 v.
Proof.
  intros H1 H2 k Hk. destruct (H1 k Hk) as (k1 & Hlt1 & Hk1).
  destruct (H2 k1 Hk1) as (k2 & Hlt2 & Hk2).
  exists k2. split; [lia | done].
Qed.

Lemma agree_off_prefix B h h1 hx :
  h `prefix_of` h1 -> agree_off B h1 hx -> agree_off B h hx.
Proof.
  intros Hp Ha x o HB Hx. apply (Ha x o HB).
  by eapply prefix_lookup_Some.
Qed.

Lemma copy_of_prefix h0 h h1 B v v' :
  h `prefix_of` h1 -> copy_of h0 h B v v' -> copy_of h0 h1 B v v'.
Proof.
  intros Hp Hc k j Hj hx Ha. apply (Hc k j Hj).
  by eapply agree_off_prefix.
Qed.

Lemma copy_of_extend h0 h B v v' o :
  copy_of h0 h B v v' ->
  copy_of h0 (h ++ [o]) (fun x => B x \/ x = length h) v v'.
Proof.
  intros Hc k j Hj hx Ha. apply (Hc k j Hj).
  intros x o' HB Hx. apply Ha.
  - intros [? | ->]; [done |]. apply lookup_lt_Some in Hx. lia.
  - by apply lookup_app_l_Some.
Qed.

Lemma agree_off_close h B l o hx :
  agree_off B (<[l := o]> h) hx ->
  agree_off (fun x => B x \/ x = l) h hx.
Proof.
  intros Ha x o' HB Hx. apply Ha.
  - intros ?. apply HB. by left.
  - rewrite list_lookup_insert_ne; [done |]. intros ->. apply HB. by right.
Qed.

Lemma copy_of_close h0 h B l o v v' :
  copy_of h0 h (fun x => B x \/ x = l) v v' ->
  copy_of h0 (<[l := o]> h) B v v'.
Proof.
  intros Hc k j Hj hx Ha. apply (Hc k j Hj). by eapply agree_off_close.
Qed.

Lemma Forall2_through {A B C} (R1 : A -> B -> Prop) (R2 : A -> C -> Prop)
  (R3 : B -> C -> Prop) (la : list A) (lb : list B) (lc : list C) :
  (forall a b c, R1 a b -> R2 a c -> R3 b c) ->
  Forall2 R1 la lb -> Forall2 R2 la lc -> Forall2 R3 lb lc.
Proof.
  intros HR H1. revert lc.
  induction H1 as [|a b la lb Hab _ IH]; intros lc H2.
  - apply Forall2_nil_inv_l in H2 as ->. constructor.
  - apply Forall2_cons_inv_l in H2 as (c & lc' & Hac & H2 & ->).
    constructor; [by eapply HR | by apply IH].
Qed.

Section copying.
Variable h0 : list pyobj.
Variable rec : pyval -> list (nat * nat) -> list pyobj -> copied pyval.
Hypothesis rec_copies : copies h0 rec.

Lemma copy_list_copies vs : forall B memo h vs' memo' h',
  copy_list rec vs memo h = inr (vs', memo', h') ->
  Forall (fun v => exists k0, is_Some (reify k0 h0 v)) vs ->
  h0 `prefix_of` h ->
  (forall b, B b -> b < length h) ->
  memo_before h0 h B memo vs ->
  h `prefix_of` h' /\
  memo_after h0 h' B memo memo' /\
  Forall2 (copy_of h0 h' B) vs vs'.
Proof.
  induction vs as [|v vs IH]; intros B memo h vs' memo' h' H Hr Hp HB Hm;
    simpl in H.
  - simplify_eq. split; [done |]. split; [by left | constructor].
  - destruct (rec v memo h) as [|[[v1 memo1] h1]] eqn:Hv; [done |].
    destruct (copy_list rec vs memo1 h1) as [|[[vs2 memo2] h2]] eqn:Hvs;
      [done |].
    simplify_eq. apply Forall_cons in Hr as [[k0 Hk0] Hr].
    destruct (rec_copies _ k0 B _ _ _ _ _ Hv Hk0 Hp HB) as (Hp1 & Ha1 & Hc1).
    { intros l l' Hl. destruct (Hm l l' Hl) as [Hab | Hc]; [left | by right].
      apply Forall_cons in Hab as [? _]. by apply Forall_singleton. }
    destruct (IH B _ _ _ _ _ Hvs Hr) as (Hp2 & Ha2 & Hf2).
    { by etrans. }
    { intros b Hb. apply HB in Hb. apply prefix_length in Hp1. lia. }
    { intros l l' Hl. destruct (Ha1 l l' Hl) as [Hl0 | Hc]; [| by right].
      destruct (Hm l l' Hl0) as [Hab | Hc]; [left | right].
      - by apply Forall_cons in Hab as [_ ?].
      - by eapply copy_of_prefix. }
    split; [by etrans |]. split.
    + intros l l' Hl. destruct (Ha2 l l' Hl) as [Hl1 | Hc]; [| by right].
      destruct (Ha1 l l' Hl1) as [Hl0 | Hc]; [by left | right].
      by eapply copy_of_prefix.
    + constructor; [by eapply copy_of_prefix | done].
Qed.

Lemma copy_items_copies kvs : forall B memo h kvs' memo' h',
  copy_items rec kvs memo h = inr (kvs', memo', h') ->
  Forall (fun kv => exists k0, is_Some (reify k0 h0 kv.2)) kvs ->
  h0 `prefix_of` h ->
  (forall b, B b -> b < length h) ->
  memo_before h0 h B memo kvs.*2 ->
  h `prefix_of` h' /\
  memo_after h0 h' B memo memo' /\
  Forall2 (fun kv kv' => kv'.1 = kv.1 /\ copy_of h0 h' B kv.2 kv'.2) kvs kvs'.
Proof.
  induction kvs as [|[key v] kvs IH];
    intros B memo h kvs' memo' h' H Hr Hp HB Hm; simpl in H.
  - simplify_eq. split; [done |]. split; [by left | constructor].
  - destruct (rec v memo h) as [|[[v1 memo1] h1]] eqn:Hv; [done |].
    destruct (copy_items rec kvs memo1 h1) as [|[[kvs2 memo2] h2]] eqn:Hkvs;
      [done |].
    simplify_eq. apply Forall_cons in Hr as [[k0 Hk0] Hr]. simpl in Hk0.
    destruct (rec_copies _ k0 B _ _ _ _ _ Hv Hk0 Hp HB) as (Hp1 & Ha1 & Hc1).
    { intros l l' Hl. destruct (Hm l l' Hl) as [Hab | Hc]; [left | by right].
      apply Forall_cons in Hab as [? _]. by apply Forall_singleton. }
    destruct (IH B _ _ _ _ _ Hkvs Hr) as (Hp2 & Ha2 & Hf2).
    { by etrans. }
    { intros b Hb. apply HB in Hb. apply prefix_length in Hp1. lia. }
    { intros l l' Hl. destruct (Ha1 l l' Hl) as [Hl0 | Hc]; [| by right].
      destruct (Hm l l' Hl0) as [Hab | Hc]; [left | right].
      - by apply Forall_cons in Hab as [_ ?].
      - by eapply copy_of_prefix. }
    split; [by etrans |]. split.
    + intros l l' Hl. destruct (Ha2 l l' Hl) as [Hl1 | Hc]; [| by right].
      destruct (Ha1 l l' Hl1) as [Hl0 | Hc]; [by left | right].
      by eapply copy_of_prefix.
    + constructor; [| done]. split; [done |]. by eapply copy_of_prefix.
Qed.

End copying.

Lemma memo_before_enter h0 h B memo l o vs :
  (forall v, v ∈ vs -> above h0 l v) ->
  memo_before h0 h B memo [VRef l] ->
  memo_before h0 (h ++ [o]) (fun x => B x \/ x = length h)
              ((l, length h) :: memo) vs.
Proof.
  intros Hvs Hm l1 l1' Hl. simpl in Hl.
  destruct (decide (l = l1)) as [<- | Hne].
  - left. by apply Forall_forall.
  - destruct (Hm l1 l1' Hl) as [Hab | Hc]; [left | right].
    + apply Forall_inv in Hab. apply Forall_forall. intros v Hv.
      eapply above_trans; [exact Hab | by apply Hvs].
    + by apply copy_of_extend.
Qed.

Lemma memo_after_leave h0 h h2 B memo memo2 l o :
  h `prefix_of` h2 ->
  copy_of h0 (<[length h := o]> h2) B (VRef l) (VRef (length h)) ->
  memo_after h0 h2 (fun x => B x \/ x = length h) ((l, length h) :: memo) memo2 ->
  memo_after h0 (<[length h := o]> h2) B memo memo2.
Proof.
  intros Hp Hnew Ha l1 l1' Hl.
  destruct (Ha l1 l1' Hl) as [Hl1 | Hc].
  - simpl in Hl1. destruct (decide (l = l1)) as [<- | Hne]; [| by left].
    right. by simplify_eq.
  - right. by apply copy_of_close.
Qed.

Lemma deepcopy_val_copies h0 fuel : copies h0 (deepcopy_val fuel).
Proof.
  induction fuel as [|n IH];
    intros v k0 B memo h v' memo' h' H [j0 Hk0] Hp HB Hm; [done |].
  simpl in H. destruct v as [a|nd|ld|l]; try done.
  - simplify_eq. split; [done |]. split; [by left |].
    intros k j Hj hx _. by destruct k.
  - destruct k0 as [|k0]; [done |].
    destruct (assoc_get l memo) as [l'|] eqn:Hmemo.
    { simplify_eq. split; [done |]. split; [by left |].
      destruct (Hm l l' Hmemo) as [Hab | Hc]; [| done].
      apply Forall_inv in Hab.
      by destruct (above_irrefl h0 l (S k0) (ex_intro _ _ Hk0)). }
    apply reify_ref in Hk0
      as [(items & js & Hl & -> & Hf)|(vs & js & Hl & -> & Hf)].
    + rewrite (prefix_lookup_Some _ _ _ _ Hl Hp) in H.
      destruct (copy_items _ items _ _) as [|[[items' memo2] h2]] eqn:Hc;
        [done |].
      simplify_eq.
      apply (copy_items_copies h0 _ IH) with (B := fun x => B x \/ x = length h)
        in Hc as (Hp2 & Ha2 & Hf2).
      * assert (Hph : h `prefix_of` h2)
          by (etrans; [by apply prefix_app_r | exact Hp2]).
        assert (Hnew : copy_of h0 (<[length h := ODict items']> h2) B
                               (VRef l) (VRef (length h))).
        { intros k j Hj hx Ha. destruct k as [|k]; [done |].
          apply reify_ref in Hj
            as [(items1 & js1 & Hl1 & -> & Hf1)|(vs1 & js1 & Hl1 & _)];
            [| congruence].
          assert (items1 = items) as -> by congruence.
          apply reify_dict_intro with items'.
          - apply Ha; [intros Hb; apply HB in Hb; lia |].
            apply list_lookup_insert_eq. apply prefix_length in Hp2.
            rewrite length_app in Hp2. simpl in Hp2. lia.
          - eapply Forall2_through; [| exact Hf2 | exact Hf1].
            intros kv kv' kj [Hk Hcopy] [Hk' Hr]. split; [congruence |].
            apply (Hcopy _ _ Hr). by eapply agree_off_close. }
        split; [by apply prefix_insert_new |]. split; [| done].
        by eapply memo_after_leave.
      * apply Forall_forall. intros kv Hin.
        apply list_elem_of_lookup in Hin as [i Hi].
        destruct (Forall2_lookup_l _ _ _ _ _ Hf Hi) as (kj & _ & _ & Hr).
        exists k0. by eexists.
      * by apply prefix_app_r.
      * intros b [Hb | ->]; rewrite length_app; simpl; [apply HB in Hb |]; lia.
      * apply memo_before_enter; [| done].
        intros v Hv. apply list_elem_of_fmap in Hv as (kv & -> & Hin).
        by eapply above_member_dict.
    + rewrite (prefix_lookup_Some _ _ _ _ Hl Hp) in H.
      destruct (copy_list _ vs _ _) as [|[[vs' memo2] h2]] eqn:Hc; [done |].
      simplify_eq.
      apply (copy_list_copies h0 _ IH) with (B := fun x => B x \/ x = length h)
        in Hc as (Hp2 & Ha2 & Hf2).
      * assert (Hph : h `prefix_of` h2)
          by (etrans; [by apply prefix_app_r | exact Hp2]).
        assert (Hnew : copy_of h0 (<[length h := OList vs']> h2) B
                               (VRef l) (VRef (length h))).
        { intros k j Hj hx Ha. destruct k as [|k]; [done |].
          apply reify_ref in Hj
            as [(items1 & js1 & Hl1 & _)|(vs1 & js1 & Hl1 & -> & Hf1)];
            [congruence |].
          assert (vs1 = vs) as -> by congruence.
          apply reify_list_intro with vs'.
          - apply Ha; [intros Hb; apply HB in Hb; lia |].
            apply list_lookup_insert_eq. apply prefix_length in Hp2.
            rewrite length_app in Hp2. simpl in Hp2. lia.
          - eapply Forall2_through; [| exact Hf2 | exact Hf1].
            intros v v' j' Hcopy Hr.
            apply (Hcopy _ _ Hr). by eapply agree_off_close. }
        split; [by apply prefix_insert_new |]. split; [| done].
        by eapply memo_after_leave.
      * apply Forall_forall. intros v Hin.
        apply list_elem_of_lookup in Hin as [i Hi].
        destruct (Forall2_lookup_l _ _ _ _ _ Hf Hi) as (j' & _ & Hr).
        exists k0. by eexists.
      * by apply prefix_app_r.
      * intros b [Hb | ->]; rewrite length_app; simpl; [apply HB in Hb |]; lia.
      * apply memo_before_enter; [| done].
        intros v Hv. by eapply above_member_list.
Qed.

(** *** The copy is made, as deep as the interpreter allows *)

Section copying_returns.
Variable h0 : list pyobj.
Variable rec : pyval -> list (nat * nat) -> list pyobj -> copied pyval.
Variable ok : pyval -> Prop.
Hypothesis rec_returns : forall v memo h,
  ok v -> h0 `prefix_of` h -> exists r, rec v memo h = inr r.
Hypothesis rec_frame : forall v memo h v' memo' h',
  rec v memo h = inr (v', memo', h') -> h `prefix_of` h'.

Lemma copy_list_returns vs : forall memo h,
  Forall ok vs -> h0 `prefix_of` h ->
  exists r, copy_list rec vs memo h = inr r.
Proof.
  induction vs as [|v vs IH]; intros memo h Hok Hp; simpl; [by eexists |].
  apply Forall_cons in Hok as [Hv Hvs].
  destruct (rec_returns v memo h Hv Hp) as [[[v1 memo1] h1] Hr].
  rewrite Hr.
  destruct (IH memo1 h1 Hvs) as [[[vs2 memo2] h2] Hr2].
  { etrans; [exact Hp | by eapply rec_frame]. }
  rewrite Hr2. by eexists.
Qed.

Lemma copy_items_returns kvs : forall memo h,
  Forall (fun kv => ok kv.2) kvs -> h0 `prefix_of` h ->
  exists r, copy_items rec kvs memo h = inr r.
Proof.
  induction kvs as [|[key v] kvs IH]; intros memo h Hok Hp; simpl;
    [by eexists |].
  apply Forall_cons in Hok as [Hv Hkvs].
  destruct (rec_returns v memo h Hv Hp) as [[[v1 memo1] h1] Hr].
  rewrite Hr.
  destruct (IH memo1 h1 Hkvs) as [[[kvs2 memo2] h2] Hr2].
  { etrans; [exact Hp | by eapply rec_frame]. }
  rewrite Hr2. by eexists.
Qed.

End copying_returns.

(** Data that can be read with fuel [k] is copied with fuel [k]: the copy
    goes no deeper than the reading. *)
Lemma deepcopy_val_enough h0 k : forall v fuel memo h,
  is_Some (reify k h0 v) -> k <= fuel -> h0 `prefix_of` h ->
  exists r, deepcopy_val fuel v memo h = inr r.
Proof.
  induction k as [|k IH]; intros v fuel memo h [j Hj] Hk Hp; [done |].
  destruct fuel as [|f]; [lia |].
  destruct v as [a|nd|ld|l]; try done; simpl; [by eexists |].
  destruct (assoc_get l memo) as [l'|]; [by eexists |].
  apply reify_ref in Hj
    as [(items & js & Hl & -> & Hf)|(vs & js & Hl & -> & Hf)];
    rewrite (prefix_lookup_Some _ _ _ _ Hl Hp).
  - destruct (copy_items_returns h0 (deepcopy_val f)
                (fun c => is_Some (reify k h0 c)))
      with (kvs := items) (memo := (l, length h) :: memo)
           (h := h ++ [ODict []]) as [[[items' memo'] h'] Hr].
    + intros c memo1 h1 Hc Hp1. apply (IH c f); [done | lia | done].
    + apply deepcopy_val_frame.
    + apply Forall_forall. intros kv Hin.
      apply list_elem_of_lookup in Hin as [i Hi].
      destruct (Forall2_lookup_l _ _ _ _ _ Hf Hi) as (kj & _ & _ & Hr).
      by eexists.
    + etrans; [exact Hp | by apply prefix_app_r].
    + rewrite Hr. by eexists.
  - destruct (copy_list_returns h0 (deepcopy_val f)
                (fun c => is_Some (reify k h0 c)))
      with (vs := vs) (memo := (l, length h) :: memo)
           (h := h ++ [OList []]) as [[[vs' memo'] h'] Hr].
    + intros c memo1 h1 Hc Hp1. apply (IH c f); [done | lia | done].
    + apply deepcopy_val_frame.
    + apply Forall_forall. intros c Hin.
      apply list_elem_of_lookup in Hin as [i Hi].
      destruct (Forall2_lookup_l _ _ _ _ _ Hf Hi) as (j' & _ & Hr).
      by eexists.
    + etrans; [exact Hp | by apply prefix_app_r].
    + rewrite Hr. by eexists.
Qed.

Lemma reify_agree k : forall h hx v j,
  (forall x o, h !! x = Some o -> hx !! x = Some o) ->
  reify k h v = Some j -> reify k hx v = Some j.
Proof.
  induction k as [|k IH]; intros h hx v j Ha Hj; [done |].
  destruct v as [a|nd|ld|l]; try done.
  apply reify_ref in Hj
    as [(items & js & Hl & -> & Hf)|(vs & js & Hl & -> & Hf)].
  - apply reify_dict_intro with items; [by apply Ha |].
    eapply Forall2_impl; [exact Hf |].
    intros kv kj [Hk Hr]. split; [done |]. by eapply IH.
  - apply reify_list_intro with vs; [by apply Ha |].
    eapply Forall2_impl; [exact Hf |].
    intros c j' Hr. by eapply IH.
Qed.

(** [copy.deepcopy] on data: when [v] holds plain nested data
    (dictionaries, lists and scalars, read back as [j]) that is no more
    levels deep than the frames in use leave, [deepcopy] returns, it
    leaves the trace and every existing object as they are, and the
    value it returns holds the same data in objects of its own. What is
    done later to the objects that existed before the copy does not show
    in the copy, and what is done to the new objects does not show in
    the original. *)
Theorem deepcopy_makes_an_independent_copy (frames : nat) (v : pyval)
  (st : state) (k : nat) (j : json) :
  reify k (heap st) v = Some j ->
  k <= levels frames ->
  exists v' st',
    deepcopy_at frames v st = (Ok v', st') /\
    trace st' = trace st /\
    heap st `prefix_of` heap st' /\
    reify k (heap st') v' = Some j /\
    (forall hx,
       (forall x o, length (heap st) <= x -> heap st' !! x = Some o ->
                    hx !! x = Some o) ->
       reify k hx v' = Some j) /\
    (forall hx,
       (forall x o, x < length (heap st) -> heap st' !! x = Some o ->
                    hx !! x = Some o) ->
       reify k hx v = Some j).
Proof.
  intros Hj Hk. unfold deepcopy_at.
  destruct (deepcopy_val_enough (heap st) k v (levels frames) [] (heap st))
    as [[[v' memo'] h'] Hr]; [by eexists | done | done |].
  rewrite Hr. exists v', (State h' (trace st)).
  destruct (deepcopy_val_copies (heap st) _ v k
              (fun x => x < length (heap st)) [] (heap st) _ _ _ Hr)
    as (Hp & _ & Hc).
  { by eexists. }
  { done. }
  { done. }
  { intros l l' Hl. done. }
  split; [done |]. split; [done |]. split; [done |]. simpl.
  assert (Hcopy : forall hx,
            (forall x o, length (heap st) <= x -> h' !! x = Some o ->
                         hx !! x = Some o) ->
            reify k hx v' = Some j).
  { intros hx Hx. apply (Hc k j Hj). intros x o HB Ho.
    apply Hx; [lia | done]. }
  split; [by apply Hcopy |]. split; [done |].
  intros hx Hx. apply (reify_agree k (heap st)); [| done].
  intros x o Ho. apply Hx; [by eapply lookup_lt_Some |].
  by eapply prefix_lookup_Some.
Qed.

Lemma deepcopy_makes_an_independent_copy_demo :
  exists v' st',
    deepcopy (VRef 1)
      (State [ODict [("RUN_TYPE", vstr "GEO_OPT")]; ODict [("GLOBAL", VRef 0)]]
             [])
    = (Ok v', st') /\
    reify 3 (<[0 := ODict []]> (heap st')) v'
    = Some (JDict [("GLOBAL", JDict [("RUN_TYPE", jstr "GEO_OPT")])]).
Proof.
  destruct (deepcopy_makes_an_independent_copy script_frames (VRef 1)
              (State [ODict [("RUN_TYPE", vstr "GEO_OPT")];
                      ODict [("GLOBAL", VRef 0)]] [])
              3 (JDict [("GLOBAL", JDict [("RUN_TYPE", jstr "GEO_OPT")])]))
    as (v' & st' & Hd & _ & _ & _ & Hcopy & _);
    [reflexivity | vm_compute; lia |].
  exists v', st'. split; [exact Hd |].
  apply Hcopy. intros x o Hx Ho.
  rewrite list_lookup_insert_ne; [done |]. simpl in Hx. lia.
Defined.

(** *** Where the copy stops *)







